(** * obsidian-utils: identifier validation, metadata normalisation,
      citation keys and note rendering

    A shallow embedding of [generate_arxiv_md.py] and
    [generate_openreview_md.py], followed by the properties of the
    written specification that are stated about them.

    Conventions of the embedding.
    - A Python [str] is a [string]; a character is a code point below 256
      (the Latin-1 range, where CPython's classification tables are small
      enough to be written out).  Code points above 255 are not modelled.
    - A raised exception is a value of [exception]; a computation that may
      raise has type [result A].
    - A Python [dict] is a [gmap]; a JSON object, whose order is observable
      through iteration, is an association list.
    - Library calls that depend on the clock, the time zone or the network
      are arguments of the functions that make them.
    - [download_pdf], [run] and the main programs only move data between
      the network, the functions below and the file system; they are not
      embedded. *)

From Stdlib Require Import String Ascii List Bool Arith ZArith Lia DecimalString.
From stdpp Require Import gmap strings.
Import ListNotations.
Local Open Scope string_scope.
Set Warnings "-register-all".

(** [simpl] may unfold string concatenation again. *)
#[local] Arguments String.append !_ _ : simpl nomatch.

(* ================================================================== *)
(** * Characters *)
(* ================================================================== *)

Definition code (c : ascii) : nat := nat_of_ascii c.

Definition between (lo hi : nat) (c : ascii) : bool :=
  (lo <=? code c)%nat && (code c <=? hi)%nat.

Definition LF : ascii := ascii_of_nat 10.
Definition QUOTE : ascii := ascii_of_nat 34.

Definition nl : string := String LF "".

(** [\d] of [re] on [str] patterns: the decimal digits (category Nd). *)
Definition is_decimal (c : ascii) : bool := between 48 57 c.

(** [str.isalnum] on one character: alphabetic, decimal, digit or numeric. *)
Definition is_alnum (c : ascii) : bool :=
  between 48 57 c || between 65 90 c || between 97 122 c
  || (code c =? 170)%nat || between 178 179 c || (code c =? 181)%nat
  || between 185 186 c || between 188 190 c
  || between 192 214 c || between 216 246 c || between 248 255 c.

(** [\w] of [re]: alphanumeric or underscore. *)
Definition is_word (c : ascii) : bool := is_alnum c || (code c =? 95)%nat.

(** Whitespace of [str.split()] and [str.strip()] without argument. *)
Definition is_whitespace (c : ascii) : bool :=
  between 9 13 c || between 28 32 c || (code c =? 133)%nat || (code c =? 160)%nat.

Definition is_upper (c : ascii) : bool :=
  between 65 90 c || between 192 214 c || between 216 222 c.

Definition lower_char (c : ascii) : ascii :=
  if is_upper c then ascii_of_nat (code c + 32) else c.

(* ================================================================== *)
(** * Strings: the [str] methods the program calls *)
(* ================================================================== *)

Definition len (s : string) : Z := Z.of_nat (String.length s).

Fixpoint str_all (p : ascii -> bool) (s : string) : bool :=
  match s with
  | EmptyString => true
  | String c s' => p c && str_all p s'
  end.

(** [s.lower()] *)
Fixpoint lower (s : string) : string :=
  match s with
  | EmptyString => EmptyString
  | String c s' => String (lower_char c) (lower s')
  end.

(** [s.replace(old, new)] for a one-character [old]. *)
Fixpoint replace (old : ascii) (new : string) (s : string) : string :=
  match s with
  | EmptyString => EmptyString
  | String c s' =>
      if Ascii.eqb c old then new ++ replace old new s'
      else String c (replace old new s')
  end.

(** [sep.join(l)] *)
Fixpoint join (sep : string) (l : list string) : string :=
  match l with
  | [] => EmptyString
  | [w] => w
  | w :: l' => w ++ sep ++ join sep l'
  end.

(** [s.split()]: the maximal runs of non-whitespace characters.  [cur] is
    the word being read, when there is one. *)
Fixpoint split_go (cur : option string) (s : string) : list string :=
  match s with
  | EmptyString =>
      match cur with Some w => [w] | None => [] end
  | String c s' =>
      if is_whitespace c then
        match cur with
        | Some w => w :: split_go None s'
        | None => split_go None s'
        end
      else
        split_go (Some (match cur with Some w => w ++ String c "" | None => String c "" end)) s'
  end.

Definition split (s : string) : list string := split_go None s.

(** [s.split(sep)] for a one-character [sep]: always at least one field. *)
Fixpoint split_on (sep : ascii) (s : string) : list string :=
  match s with
  | EmptyString => [EmptyString]
  | String c s' =>
      if Ascii.eqb c sep then EmptyString :: split_on sep s'
      else
        match split_on sep s' with
        | w :: ws => String c w :: ws
        | [] => [String c ""]
        end
  end.

Fixpoint lstrip (s : string) : string :=
  match s with
  | EmptyString => EmptyString
  | String c s' => if is_whitespace c then lstrip s' else s
  end.

Fixpoint rstrip (s : string) : string :=
  match s with
  | EmptyString => EmptyString
  | String c s' =>
      match rstrip s' with
      | EmptyString => if is_whitespace c then EmptyString else String c ""
      | r => String c r
      end
  end.

(** [s.strip()] *)
Definition strip (s : string) : string := rstrip (lstrip s).

Fixpoint startswith (p s : string) : bool :=
  match p, s with
  | EmptyString, _ => true
  | String a p', String b s' => Ascii.eqb a b && startswith p' s'
  | String _ _, EmptyString => false
  end.

(** [s.find(sub)]: the lowest index where [sub] occurs, or [-1]. *)
Fixpoint find_from (sub s : string) (i : Z) : Z :=
  if startswith sub s then i
  else
    match s with
    | EmptyString => (-1)%Z
    | String _ s' => find_from sub s' (i + 1)%Z
    end.

Definition str_find (sub s : string) : Z := find_from sub s 0%Z.

(** [sub in s] *)
Definition contains (sub s : string) : bool := (0 <=? str_find sub s)%Z.

(** [s.rfind(sub)]: the highest index where [sub] occurs, or [-1]. *)
Fixpoint rfind_from (sub s : string) (i : Z) : Z :=
  match s with
  | EmptyString => if startswith sub s then i else (-1)%Z
  | String _ s' =>
      let r := rfind_from sub s' (i + 1)%Z in
      if (0 <=? r)%Z then r else if startswith sub s then i else (-1)%Z
  end.

Definition str_rfind (sub s : string) : Z := rfind_from sub s 0%Z.

Fixpoint str_take (n : nat) (s : string) : string :=
  match n, s with
  | S n', String c s' => String c (str_take n' s')
  | _, _ => EmptyString
  end.

Fixpoint str_drop (n : nat) (s : string) : string :=
  match n, s with
  | S n', String _ s' => str_drop n' s'
  | _, _ => s
  end.

(** A slice bound: negative bounds count from the end, and every bound is
    clamped to the string. *)
Definition bound (s : string) (i : Z) : nat :=
  Z.to_nat (Z.min (len s) (Z.max 0 (if (i <? 0)%Z then i + len s else i)%Z)).

(** [s[i:]], [s[:j]] and [s[i:j]] *)
Definition slice_from (s : string) (i : Z) : string := str_drop (bound s i) s.
Definition slice_to (s : string) (j : Z) : string := str_take (bound s j) s.
Definition slice (s : string) (i j : Z) : string :=
  str_take (bound s j - bound s i) (str_drop (bound s i) s).

(** [s.split(sep)] for a separator of one or more characters: the fields
    between the occurrences of [sep], found from left to right.  Every
    step but the last reads at least one character, so the length of [s]
    is fuel enough. *)
Fixpoint split_str_go (sep : string) (fuel : nat) (s : string) : list string :=
  match fuel with
  | O => [s]
  | S fuel' =>
      if startswith sep s
      then EmptyString :: split_str_go sep fuel' (str_drop (String.length sep) s)
      else
        match s with
        | EmptyString => [EmptyString]
        | String c s' =>
            match split_str_go sep fuel' s' with
            | w :: ws => String c w :: ws
            | [] => [String c ""]
            end
        end
  end.

Definition split_str (sep s : string) : list string :=
  split_str_go sep (S (String.length s)) s.

(* ================================================================== *)
(** * Exceptions *)
(* ================================================================== *)

Inductive exception : Type :=
| Exception (msg : string)
| KeyError (key_repr : string)
| IndexError (msg : string)
| AttributeError (msg : string)
| TypeError (msg : string)
| ValueError (msg : string)
| HTTPError (msg : string).

(** [str(error)] *)
Definition str_of_exception (e : exception) : string :=
  match e with
  | Exception msg | KeyError msg | IndexError msg | AttributeError msg
  | TypeError msg | ValueError msg | HTTPError msg => msg
  end.

(** [repr(k)] of a key without quotes or escapes in it. *)
Definition repr_str (k : string) : string := "'" ++ k ++ "'".

(** [str(i)] of a natural number. *)
Definition str_of_nat (i : nat) : string := NilEmpty.string_of_uint (Nat.to_uint i).

Definition result (A : Type) : Type := exception + A.

Definition ret {A} (a : A) : result A := inr a.
Definition raise {A} (e : exception) : result A := inl e.

Definition bind {A B} (m : result A) (k : A -> result B) : result B :=
  match m with
  | inl e => inl e
  | inr a => k a
  end.

Notation "x <-- m ;; k" := (bind m (fun x => k))
  (at level 100, m at next level, right associativity).

Definition no_attribute {A} (type attr : string) : result A :=
  raise (AttributeError ("'" ++ type ++ "' object has no attribute '" ++ attr ++ "'")).

(** [d[k]] on a dict with string keys *)
Definition dict_getitem {V} (d : gmap string V) (k : string) : result V :=
  match d !! k with
  | Some v => ret v
  | None => raise (KeyError (repr_str k))
  end.

(** [try: body  except: handler] *)
Definition try_except {A} (body : result A) (handler : exception -> A) : A :=
  match body with
  | inl e => handler e
  | inr a => a
  end.

Fixpoint for_each {A B} (f : A -> result B) (l : list A) : result (list B) :=
  match l with
  | [] => ret []
  | a :: l' => b <-- f a ;; bs <-- for_each f l' ;; ret (b :: bs)
  end.

(** [l[-1]] and [l[0]] *)
Definition last_item {A} (l : list A) : result A :=
  match rev l with
  | a :: _ => ret a
  | [] => raise (IndexError "list index out of range")
  end.

Definition first_item {A} (l : list A) : result A :=
  match l with
  | a :: _ => ret a
  | [] => raise (IndexError "list index out of range")
  end.

(* ================================================================== *)
(** * Regular expressions: the part of [re] the validators use *)
(* ================================================================== *)

(** The syntax after parsing.  Capturing groups do not change which
    strings match and are left out. *)
Inductive regex : Type :=
| Empty
| At_beginning                       (* ^ *)
| At_end                             (* $ *)
| Literal (c : ascii)
| In_set (p : ascii -> bool)         (* \d, \w, [...] *)
| Seq (r1 r2 : regex)
| Branch (r1 r2 : regex)             (* r1|r2 *)
| Star (r : regex).                  (* r* *)

Declare Scope regex_scope.
Delimit Scope regex_scope with re.
Bind Scope regex_scope with regex.
Infix ";;;" := Seq (at level 41, right associativity) : regex_scope.

(** [r?], [r+], [r{n}] and [r{n,}] *)
Definition Opt (r : regex) : regex := Branch r Empty.
Definition Plus (r : regex) : regex := Seq r (Star r).

Fixpoint Times (n : nat) (r : regex) : regex :=
  match n with
  | O => Empty
  | S n' => Seq r (Times n' r)
  end.

Definition At_least (n : nat) (r : regex) : regex := Seq (Times n r) (Star r).

(** A literal word, and [w1|w2|...] *)
Fixpoint Word (w : string) : regex :=
  match w with
  | EmptyString => Empty
  | String c w' => Seq (Literal c) (Word w')
  end.

Fixpoint Branches (r : regex) (rs : list regex) : regex :=
  match rs with
  | [] => r
  | r' :: rs' => Branch r (Branches r' rs')
  end.

(** The matcher keeps the part of the subject still to be read.  [run n r s]
    lists, in the order a backtracking matcher tries them, the remainders
    after [r] has matched at the front of [s]; [n] is the length of the
    whole subject, which [^] needs. *)
Fixpoint star_run (body : string -> list string) (fuel : nat) (s : string)
  : list string :=
  match fuel with
  | O => [s]
  | S fuel' =>
      (flat_map (fun s' =>
         if (String.length s' <? String.length s)%nat
         then star_run body fuel' s' else []) (body s) ++ [s])%list
  end.

Fixpoint run (n : nat) (r : regex) (s : string) : list string :=
  match r with
  | Empty => [s]
  | At_beginning => if (String.length s =? n)%nat then [s] else []
  | At_end =>
      (* without MULTILINE: at the end, or before a final line feed *)
      match s with
      | EmptyString => [s]
      | String c EmptyString => if Ascii.eqb c LF then [s] else []
      | _ => []
      end
  | Literal c =>
      match s with
      | String a s' => if Ascii.eqb a c then [s'] else []
      | EmptyString => []
      end
  | In_set p =>
      match s with
      | String a s' => if p a then [s'] else []
      | EmptyString => []
      end
  | Seq r1 r2 => flat_map (run n r2) (run n r1 s)
  | Branch r1 r2 => (run n r1 s ++ run n r2 s)%list
  | Star r' => star_run (run n r') (String.length s) s
  end.

(** [bool(pattern.match(s))]: is there a match at the start of [s]? *)
Definition re_match (r : regex) (s : string) : bool :=
  match run (String.length s) r s with
  | [] => false
  | _ :: _ => true
  end.

(* ================================================================== *)
(** * xml.etree.ElementTree: elements and the two searches used *)
(* ================================================================== *)

Module ElementTree.

Inductive Element : Type :=
  element (tag : string) (attrib : gmap string string)
          (text : option string) (children : list Element).

Definition tag (e : Element) : string := let (t, _, _, _) := e in t.
Definition attrib (e : Element) : gmap string string := let (_, a, _, _) := e in a.
Definition text (e : Element) : option string := let (_, _, t, _) := e in t.
Definition children (e : Element) : list Element := let (_, _, _, c) := e in c.

Definition named (t : string) (e : Element) : bool := String.eqb (tag e) t.

(** [e.find(t)] for a path of one tag: the first child with that tag, or
    [None]. *)
Definition find (t : string) (e : Element) : option Element :=
  List.find (named t) (children e).

(** [e.findall(t1/t2/...)]: a path is given as the list of its tags. *)
Fixpoint findall (path : list string) (e : Element) : list Element :=
  match path with
  | [] => [e]
  | t :: path' => flat_map (findall path') (List.filter (named t) (children e))
  end.

(** [x.text], [x.attrib] and [t.strip()] where [x] or [t] may be [None]. *)
Definition get_text (x : option Element) : result (option string) :=
  match x with
  | Some e => ret (text e)
  | None => no_attribute "NoneType" "text"
  end.

Definition get_attrib (x : option Element) : result (gmap string string) :=
  match x with
  | Some e => ret (attrib e)
  | None => no_attribute "NoneType" "attrib"
  end.

End ElementTree.

Definition strip_of (t : option string) : result string :=
  match t with
  | Some s => ret (strip s)
  | None => no_attribute "NoneType" "strip"
  end.

Definition split_of (t : option string) : result (list string) :=
  match t with
  | Some s => ret (split s)
  | None => no_attribute "NoneType" "split"
  end.

(** [sep.join(l)] where an item may be [None]. *)
Fixpoint join_items (i : nat) (l : list (option string)) : result (list string) :=
  match l with
  | [] => ret []
  | Some s :: l' => ss <-- join_items (S i) l' ;; ret (s :: ss)
  | None :: _ =>
      raise (TypeError ("sequence item " ++ str_of_nat i
                        ++ ": expected str instance, NoneType found"))
  end.

Definition join_of (sep : string) (l : list (option string)) : result string :=
  ss <-- join_items 0 l ;; ret (join sep ss).

(* ================================================================== *)
(** * JSON values, as [response.json()] returns them *)
(* ================================================================== *)

(** Numbers are integers here; an object keeps the order of its keys. *)
Inductive json : Type :=
| JNull
| JBool (b : bool)
| JInt (n : Z)
| JStr (s : string)
| JList (l : list json)
| JDict (d : list (string * json)).

Definition type_name (j : json) : string :=
  match j with
  | JNull => "NoneType"
  | JBool _ => "bool"
  | JInt _ => "int"
  | JStr _ => "str"
  | JList _ => "list"
  | JDict _ => "dict"
  end.

(** The truth value of [j] in [if j] and [not j]. *)
Definition truthy (j : json) : bool :=
  match j with
  | JNull => false
  | JBool b => b
  | JInt n => negb (n =? 0)%Z
  | JStr s => negb (String.eqb s "")
  | JList l => match l with [] => false | _ => true end
  | JDict d => match d with [] => false | _ => true end
  end.

Fixpoint assoc (k : string) (d : list (string * json)) : option json :=
  match d with
  | [] => None
  | (k', v) :: d' => if String.eqb k' k then Some v else assoc k d'
  end.

(** [j[k]] for a string [k] *)
Definition getitem (j : json) (k : string) : result json :=
  match j with
  | JDict d =>
      match assoc k d with
      | Some v => ret v
      | None => raise (KeyError (repr_str k))
      end
  | JList _ => raise (TypeError "list indices must be integers or slices, not str")
  | JStr _ => raise (TypeError "string indices must be integers, not 'str'")
  | _ => raise (TypeError ("'" ++ type_name j ++ "' object is not subscriptable"))
  end.

(** [j.get(k, default)] *)
Definition get (j : json) (k : string) (default : json) : result json :=
  match j with
  | JDict d => ret (match assoc k d with Some v => v | None => default end)
  | _ => no_attribute (type_name j) "get"
  end.

(** [j[0]] *)
Definition getitem0 (j : json) : result json :=
  match j with
  | JList (x :: _) => ret x
  | JList [] => raise (IndexError "list index out of range")
  | JStr (String c _) => ret (JStr (String c ""))
  | JStr EmptyString => raise (IndexError "string index out of range")
  | JDict _ => raise (KeyError "0")
  | _ => raise (TypeError ("'" ++ type_name j ++ "' object is not subscriptable"))
  end.

Fixpoint chars (s : string) : list json :=
  match s with
  | EmptyString => []
  | String c s' => JStr (String c "") :: chars s'
  end.

(** The items of [for x in j]. *)
Definition iterate (j : json) : result (list json) :=
  match j with
  | JList l => ret l
  | JStr s => ret (chars s)
  | JDict d => ret (map (fun kv => JStr (fst kv)) d)
  | _ => raise (TypeError ("'" ++ type_name j ++ "' object is not iterable"))
  end.

(** The receiver of a [str] method: only a [str] has the attribute. *)
Definition as_str (attr : string) (j : json) : result string :=
  match j with
  | JStr s => ret s
  | _ => no_attribute (type_name j) attr
  end.

(** [sep.join(j)] *)
Fixpoint join_json_items (i : nat) (l : list json) : result (list string) :=
  match l with
  | [] => ret []
  | JStr s :: l' => ss <-- join_json_items (S i) l' ;; ret (s :: ss)
  | j :: _ =>
      raise (TypeError ("sequence item " ++ str_of_nat i
                        ++ ": expected str instance, " ++ type_name j ++ " found"))
  end.

Definition join_json (sep : string) (j : json) : result string :=
  match j with
  | JNull | JBool _ | JInt _ => raise (TypeError "can only join an iterable")
  | _ => l <-- iterate j ;; ss <-- join_json_items 0 l ;; ret (join sep ss)
  end.

(* ================================================================== *)
(** * What the program takes from its environment *)
(* ================================================================== *)

(** The conversions that depend on the clock, the time zone or on
    [datetime]'s parser, and [str] of a value that is not a string. *)
Record Runtime : Type := {
  (** [datetime.now().strftime("%Y-%m-%d (%a)")] *)
  today : string;
  (** [datetime.strptime(s, "%Y-%m-%dT%H:%M:%SZ").strftime("%Y-%m-%d")] *)
  reformat_pubdate : string -> result string;
  (** [datetime.fromtimestamp(v / 1000).year], formatted *)
  year_of_timestamp : json -> result string;
  (** [datetime.fromtimestamp(v / 1000).strftime("%Y-%m-%d")] *)
  date_of_timestamp : json -> result string;
  (** [str(v)] for [v] that is not a [str] *)
  str_of_value : json -> string
}.

(** [f"{v}"] *)
Definition format_value (rt : Runtime) (v : json) : string :=
  match v with
  | JStr s => s
  | _ => str_of_value rt v
  end.

(* ================================================================== *)
(** * Files, the network and the terminal *)
(* ================================================================== *)

(** What a run does to the outside world, in order. *)
Inductive event : Type :=
| Open (filename mode : string)      (* open(filename, mode) *)
| Read (filename : string)           (* the lines of an open file are read *)
| Write (filename data : string)     (* f.write(data) *)
| Close (filename : string)          (* the end of a [with open(...)] block *)
| Get (url : string)                 (* requests.get(url) *)
| Print (text : string).             (* print(text) *)

Record Response : Type := { status_code : Z; content : string }.

(** The outside world: after a given history, which step raises, what a
    request returns and which lines a file holds. *)
Record System : Type := {
  refuses : list event -> event -> option exception;
  responds : list event -> string -> Response;
  lines_of : list event -> string -> list string
}.

(** A computation with effects: from the history so far to the history
    after it and its result or exception. *)
Definition io (A : Type) : Type := list event -> list event * result A.

Definition io_ret {A} (a : A) : io A := fun h => (h, inr a).

Definition lift {A} (r : result A) : io A := fun h => (h, r).

Definition io_bind {A B} (m : io A) (k : A -> io B) : io B :=
  fun h =>
    let '(h1, r) := m h in
    match r with
    | inl e => (h1, inl e)
    | inr a => k a h1
    end.

Notation "x <~~ m ;; k" := (io_bind m (fun x => k))
  (at level 100, m at next level, right associativity).

(** A step that raises leaves no trace. *)
Definition perform (sys : System) (e : event) : io unit :=
  fun h =>
    match refuses sys h e with
    | Some x => (h, inl x)
    | None => ((h ++ [e])%list, inr tt)
    end.

(** [requests.get(url)] *)
Definition requests_get (sys : System) (url : string) : io Response :=
  fun h =>
    match refuses sys h (Get url) with
    | Some x => (h, inl x)
    | None => ((h ++ [Get url])%list, inr (responds sys h url))
    end.

(** [for line in file] *)
Definition read_lines (sys : System) (filename : string) : io (list string) :=
  fun h =>
    match refuses sys h (Read filename) with
    | Some x => (h, inl x)
    | None => ((h ++ [Read filename])%list, inr (lines_of sys h filename))
    end.

(** [with open(filename, mode) as f: body]: the file is closed when the
    body returns and when it raises. *)
Definition with_open {A} (sys : System) (filename mode : string) (body : io A) : io A :=
  fun h =>
    match refuses sys h (Open filename mode) with
    | Some x => (h, inl x)
    | None =>
        let '(h1, r) := body (h ++ [Open filename mode])%list in
        match refuses sys h1 (Close filename) with
        | Some x => (h1, inl x)
        | None => ((h1 ++ [Close filename])%list, r)
        end
    end.

(** [for x in l: body] *)
Fixpoint for_io {A} (body : A -> io unit) (l : list A) : io unit :=
  match l with
  | [] => io_ret tt
  | a :: l' => _ <~~ body a ;; for_io body l'
  end.

(** [str(n)] of an integer. *)
Definition str_of_Z (n : Z) : string := NilZero.string_of_int (Z.to_int n).

(* ================================================================== *)
(** * generate_arxiv_md.py *)
(* ================================================================== *)

Module generate_arxiv_md.

Definition ATOM : string := "{http://www.w3.org/2005/Atom}".
Definition ARXIV : string := "{http://arxiv.org/schemas/atom}".

Definition digit : regex := In_set is_decimal.

(** [(v\d+)?] *)
Definition version : regex := Opt (Literal "v" ;;; Plus digit).

(** [^\d{4}\.\d{4,}(v\d+)?$] *)
Definition NEW_STYLE : regex :=
  (At_beginning ;;; Times 4 digit ;;; Literal "." ;;; At_least 4 digit ;;;
   version ;;; At_end)%re.

(** [area(\.(c1|c2|...))?] *)
Definition with_sub (area : string) (c : string) (cs : list string) : regex :=
  (Word area ;;; Opt (Literal "." ;;; Branches (Word c) (map Word cs)))%re.

Definition OLD_STYLE_area : regex :=
  Branches (Word "math-ph")
    [ Word "hep-ph"; Word "nucl-ex"; Word "nucl-th"; Word "gr-qc";
      Word "astro-ph"; Word "hep-lat"; Word "quant-ph"; Word "hep-ex";
      Word "hep-th";
      with_sub "stat" "AP" ["CO"; "ML"; "ME"; "TH"];
      with_sub "q-bio" "BM" ["CB"; "GN"; "MN"; "NC"; "OT"; "PE"; "QM"; "SC"; "TO"];
      with_sub "cond-mat" "dis-nn"
        ["mes-hall"; "mtrl-sci"; "other"; "soft"; "stat-mech"; "str-el"; "supr-con"];
      with_sub "cs" "AR"
        ["AI"; "CL"; "CC"; "CE"; "CG"; "GT"; "CV"; "CY"; "CR"; "DS"; "DB";
         "DL"; "DM"; "DC"; "GL"; "GR"; "HC"; "IR"; "IT"; "LG"; "LO";
         "MS"; "MA"; "MM"; "NI"; "NE"; "NA"; "OS"; "OH"; "PF"; "PL"; "RO";
         "SE"; "SD"; "SC"];
      with_sub "nlin" "AO" ["CG"; "CD"; "SI"; "PS"];
      with_sub "physics" "acc-ph"
        ["ao-ph"; "atom-ph"; "atm-clus"; "bio-ph"; "chem-ph"; "class-ph";
         "comp-ph"; "data-an"; "flu-dyn"; "gen-ph"; "geo-ph"; "hist-ph";
         "ins-det"; "med-ph"; "optics"; "ed-ph"; "soc-ph"; "plasm-ph";
         "pop-ph"; "space-ph"];
      with_sub "math" "AG"
        ["AT"; "AP"; "CT"; "CA"; "CO"; "AC"; "CV"; "DG"; "DS"; "FA"; "GM";
         "GN"; "GT"; "GR"; "HO"; "IT"; "KT"; "LO"; "MP"; "MG"; "NT"; "NA";
         "OA"; "OC"; "PR"; "QA"; "RT"; "RA"; "SP"; "ST"; "SG"] ].

(** [^( area... )/\d{7}(v\d+)?$], written in the source in verbose mode,
    where white space inside the pattern is ignored. *)
Definition OLD_STYLE : regex :=
  (At_beginning ;;; OLD_STYLE_area ;;; Literal "/" ;;; Times 7 digit ;;;
   version ;;; At_end)%re.

(** Checks if id resembles a valid arxiv identifier. *)
Definition is_valid (arxiv_id : string) : bool :=
  re_match NEW_STYLE arxiv_id || re_match OLD_STYLE arxiv_id.

(** ** class Reference: a single reference *)

Module Reference.

Import ElementTree.

Record t : Type := {
  xml : Element;
  url : string;
  id : string;
  authors : list (option string);
  title : string;
  summary : string;
  category : string;
  year : string;
  month : string;
  pub_date : string;
  updated : string;
  bare_id : string;
  note : string;
  doi : string
}.

(** Extracts author names from xml. *)
Definition _authors (xml : Element) : list (option string) :=
  let xml_list := findall [ATOM ++ "author"; ATOM ++ "name"] xml in
  map text xml_list.

(** Extracts text from arbitrary xml field. *)
Definition _field_text (xml : Element) (id : string) (namespace : string) : string :=
  try_except
    (t <-- get_text (find (namespace ++ id) xml) ;; strip_of t)
    (fun _ => "").

(** Get category. *)
Definition _category (xml : Element) : string :=
  try_except
    (a <-- get_attrib (find (ARXIV ++ "primary_category") xml) ;;
     dict_getitem a "term")
    (fun _ => "").

(** Get arxiv id. *)
Definition _id (xml : Element) : string :=
  try_except
    (let id_url := _field_text xml "id" ATOM in
     ret (slice_from id_url (str_find "/abs/" id_url + 5)))
    (fun _ => "").

(** Get published date. *)
Definition _published (xml : Element) : string * string :=
  let published := _field_text xml "published" ATOM in
  if (len published <? 7)%Z then ("", "")
  else (slice_to published 4, slice published 5 7).

Definition __init__ (entry_xml : Element) : result t :=
  let xml := entry_xml in
  let url := _field_text xml "id" ATOM in
  let id := _id xml in
  let authors := _authors xml in
  let title := _field_text xml "title" ATOM in
  if (len id =? 0)%Z || (Z.of_nat (length authors) =? 0)%Z || (len title =? 0)%Z
  then raise (Exception "No such publication")
  else
    let summary := _field_text xml "summary" ATOM in
    let category := _category xml in
    let '(year, month) := _published xml in
    let pub_date := _field_text xml "published" ATOM in
    let updated := _field_text xml "updated" ATOM in
    let bare_id := slice_to id (str_rfind "v" id) in
    let note := _field_text xml "journal_ref" ARXIV in
    let doi := _field_text xml "doi" ARXIV in
    ret {| xml := xml; url := url; id := id; authors := authors;
           title := title; summary := summary; category := category;
           year := year; month := month; pub_date := pub_date;
           updated := updated; bare_id := bare_id; note := note; doi := doi |}.

(** Generate a citation key based on authors and year. *)
Definition citation_key (self : t) : result string :=
  author_last_names <--
    for_each (fun name => ws <-- split_of name ;; w <-- last_item ws ;; ret (lower w))
             (authors self) ;;
  let year := year self in
  let title_words := split (lower (title self)) in
  let first_word :=
    match title_words with
    | w :: _ => replace ":" "" w
    | [] => ""
    end in
  a <-- first_item author_last_names ;;
  ret (a ++ year ++ first_word).

(** Convert reference to a dictionary. *)
Definition to_dict (self : t) : result (gmap string string) :=
  key <-- citation_key self ;;
  author <-- join_of " and " (authors self) ;;
  ret (list_to_map
         [ ("key", key);
           ("author", author);
           ("title", title self);
           ("eprint", id self);
           ("archivePrefix", "arXiv");
           ("primaryClass", category self);
           ("year", year self);
           ("month", month self);
           ("pubdate", pub_date self);
           ("doi", doi self);
           ("url", url self);
           ("note", note self);
           ("summary", summary self) ]).

End Reference.

(** Fetches citations for ids in id_list into a dictionary indexed by id.
    [arxiv_request] is the call to the arXiv API; it returns the parsed
    feed or raises. *)
Definition arxiv2bib_dict
    (arxiv_request : list string -> result ElementTree.Element)
    (id_list : list string)
  : result (gmap string (gmap string string)) :=
  (* Validate ids *)
  let '(ids, results) :=
    fold_left
      (fun '(ids, results) id =>
         if is_valid id then ((ids ++ [id])%list, results)
         else (ids, <[id := {["error" := "Invalid arXiv identifier"]}]> results))
      id_list ([], ∅) in
  if (Z.of_nat (length ids) =? 0)%Z then ret results
  else
    (* Make the API call *)
    xml <-- arxiv_request ids ;;
    (* Parse each reference and store it in dictionary *)
    let entries := ElementTree.findall [ATOM ++ "entry"] xml in
    ret (fold_left
           (fun results '(id, entry) =>
              try_except
                (ref <-- Reference.__init__ entry ;;
                 d <-- Reference.to_dict ref ;;
                 ret (<[id := d]> results))
                (fun error => <[id := {["error" := str_of_exception error]}]> results))
           (combine id_list entries) results).

(** Fetch BibTeX entries for a list of arXiv IDs. *)
Definition fetch_bibtex arxiv_request (ids : list string) :=
  arxiv2bib_dict arxiv_request ids.

Definition generate_markdown_file (rt : Runtime) (metadata : gmap string string)
  : result string :=
  (* Remove unnecessary spaces and newlines *)
  title <-- dict_getitem metadata "title" ;;
  let title := join " " (split title) in
  summary <-- dict_getitem metadata "summary" ;;
  let summary := join " " (split summary) in
  (* Wrap in quotes if it contains colons *)
  let title :=
    if contains ":" title
    then String QUOTE (replace QUOTE "" title) ++ String QUOTE "" else title in
  let summary :=
    if contains ":" summary
    then String QUOTE (replace QUOTE "" summary) ++ String QUOTE "" else summary in
  (* Get the current date and format it *)
  let date_added := today rt in
  pubdate <-- dict_getitem metadata "pubdate" ;;
  date_published <-- reformat_pubdate rt pubdate ;;
  author <-- dict_getitem metadata "author" ;;
  url <-- dict_getitem metadata "url" ;;
  key <-- dict_getitem metadata "key" ;;
  ret (join nl
         [ "---";
           "title: " ++ title;
           "authors: " ++ author;
           "tldr: " ++ summary;
           "venue: arXiv";
           "date_published: " ++ date_published;
           "rating: 0/5";
           "date_added: " ++ date_added;
           "url: " ++ url;
           "links: ";
           "tags:";
           "---";
           "> [!notes] Notes";
           "> Summary, Quotes, Thoughts, Questions, etc.";
           "";
           "---";
           "# PDF";
           "";
           "![[" ++ key ++ ".pdf]]" ]).

Definition download_pdf (sys : System) (arxiv_id filename : string) : io unit :=
  let pdf_url := "http://arxiv.org/pdf/" ++ arxiv_id ++ ".pdf" in
  response <~~ requests_get sys pdf_url ;;
  if (status_code response =? 200)%Z then
    _ <~~ with_open sys filename "wb"
            (perform sys (Write filename (content response))) ;;
    perform sys (Print ("Downloaded: " ++ filename))
  else
    perform sys (Print ("Failed to download PDF: " ++ str_of_Z (status_code response))).

(** Links should be in the format https://arxiv.org/pdf/<paper identifier>,
    https://arxiv.org/abs/<paper identifier>.  The message of the
    [KeyError] of [bibtex_db[paper_id]] is exact for an id without quotes
    and escapes. *)
Definition run (sys : System) (rt : Runtime)
    (arxiv_request : list string -> result ElementTree.Element)
    (entries : list string) : io unit :=
  paper_ids <~~ lift (for_each (fun entry => last_item (split_on "/" entry)) entries) ;;
  bibtex_db <~~ lift (fetch_bibtex arxiv_request paper_ids) ;;
  for_io
    (fun paper_id =>
       metadata <~~ lift (dict_getitem bibtex_db paper_id) ;;
       key <~~ lift (dict_getitem metadata "key") ;;
       _ <~~ with_open sys (key ++ ".md") "w"
               (text <~~ lift (generate_markdown_file rt metadata) ;;
                perform sys (Write (key ++ ".md") text)) ;;
       key <~~ lift (dict_getitem metadata "key") ;;
       download_pdf sys paper_id (key ++ ".pdf"))
    paper_ids.

(** The main program: read URLs from links.txt. *)
Definition main (sys : System) (rt : Runtime)
    (arxiv_request : list string -> result ElementTree.Element) : io unit :=
  entries <~~ with_open sys "links.txt" "r"
                (lines <~~ read_lines sys "links.txt" ;;
                 io_ret (map strip
                           (List.filter (fun line => negb (String.eqb (strip line) ""))
                                        lines))) ;;
  run sys rt arxiv_request entries.

End generate_arxiv_md.

(* ================================================================== *)
(** * generate_openreview_md.py *)
(* ================================================================== *)

Module generate_openreview_md.

(** [[\w-]] *)
Definition word_or_hyphen (c : ascii) : bool := is_word c || Ascii.eqb c "-".

(** [^[\w-]+$] *)
Definition OPENREVIEW_ID : regex :=
  (At_beginning ;;; Plus (In_set word_or_hyphen) ;;; At_end)%re.

(** Checks if ID resembles a valid OpenReview identifier. *)
Definition is_valid (openreview_id : string) : bool :=
  re_match OPENREVIEW_ID openreview_id.

(** ** class Reference: a single reference from OpenReview *)

Module Reference.

Record t : Type := {
  json_data : json;
  id : json;
  title : json;
  authors : json;
  summary : json;
  pdf_url : string;
  url : string;
  pub_date : json;
  venueid : json
}.

(** [json_data['content'][field]['value']] *)
Definition content_value (json_data : json) (field : string) : result json :=
  content <-- getitem json_data "content" ;;
  entry <-- getitem content field ;;
  getitem entry "value".

Definition __init__ (rt : Runtime) (json_data : json) : result t :=
  id <-- getitem json_data "id" ;;
  title <-- content_value json_data "title" ;;
  authors <-- content_value json_data "authors" ;;
  summary <-- content_value json_data "abstract" ;;
  pdf <-- content_value json_data "pdf" ;;
  let pdf_url := "https://openreview.net" ++ format_value rt pdf in
  forum <-- getitem json_data "forum" ;;
  let url := "https://openreview.net/forum?id=" ++ format_value rt forum in
  pub_date <-- get json_data "pdate" (JStr "") ;;
  venueid <-- content_value json_data "venueid" ;;
  if negb (truthy id) || negb (truthy authors) || negb (truthy title)
  then raise (Exception "No such publication")
  else
    ret {| json_data := json_data; id := id; title := title;
           authors := authors; summary := summary; pdf_url := pdf_url;
           url := url; pub_date := pub_date; venueid := venueid |}.

(** Generate a citation key based on authors and year. *)
Definition citation_key (rt : Runtime) (self : t) : result string :=
  names <-- iterate (authors self) ;;
  author_last_names <--
    for_each (fun name => n <-- as_str "split" name ;;
                          w <-- last_item (split n) ;;
                          ret (lower w))
             names ;;
  year <-- (if truthy (pub_date self) then year_of_timestamp rt (pub_date self)
            else ret "YYYY") ;;
  first_word <--
    (if truthy (title self)
     then (t <-- as_str "lower" (title self) ;;
           w <-- first_item (split (lower t)) ;;
           ret (replace ":" "" w))
     else ret "") ;;
  a <-- first_item author_last_names ;;
  ret (a ++ year ++ first_word).

(** Convert reference to a dictionary. *)
Definition to_dict (rt : Runtime) (self : t) : result (gmap string json) :=
  key <-- citation_key rt self ;;
  author <-- join_json " and " (authors self) ;;
  pubdate <-- (if truthy (pub_date self) then date_of_timestamp rt (pub_date self)
               else ret "") ;;
  v <-- as_str "split" (venueid self) ;;
  venue <-- first_item (split_on "/" v) ;;
  ret (list_to_map
         [ ("key", JStr key);
           ("author", JStr author);
           ("title", title self);
           ("eprint", id self);
           ("url", JStr (url self));
           ("summary", summary self);
           ("pubdate", JStr pubdate);
           ("venue", JStr venue) ]).

End Reference.

(** Fetches citations for ids in id_list into a dictionary indexed by id.
    [openreview_request] is the call to the OpenReview API for one id; it
    returns the list of notes of the response or raises. *)
Definition openreview2bib_dict
    (rt : Runtime) (openreview_request : string -> result json)
    (id_list : list string)
  : gmap string (gmap string json) :=
  fold_left
    (fun results id =>
       if is_valid id then
         try_except
           (notes <-- openreview_request id ;;
            if truthy notes then
              note <-- getitem0 notes ;;
              ref <-- Reference.__init__ rt note ;;
              d <-- Reference.to_dict rt ref ;;
              ret (<[id := d]> results)
            else
              ret (<[id := {["error" := JStr "No notes found"]}]> results))
           (fun error => <[id := {["error" := JStr (str_of_exception error)]}]> results)
       else
         <[id := {["error" := JStr "Invalid OpenReview identifier"]}]> results)
    id_list ∅.

(** Fetch BibTeX entries for a list of OpenReview IDs. *)
Definition fetch_bibtex rt openreview_request (ids : list string) :=
  openreview2bib_dict rt openreview_request ids.

Definition generate_markdown_file (rt : Runtime) (metadata : gmap string json)
  : result string :=
  (* Remove unnecessary spaces and newlines *)
  title <-- dict_getitem metadata "title" ;;
  title <-- as_str "split" title ;;
  let title := join " " (split title) in
  summary <-- dict_getitem metadata "summary" ;;
  summary <-- as_str "split" summary ;;
  let summary := join " " (split summary) in
  (* Wrap in quotes if it contains colons *)
  let title :=
    if contains ":" title
    then String QUOTE (replace QUOTE "" title) ++ String QUOTE "" else title in
  let summary :=
    if contains ":" summary
    then String QUOTE (replace QUOTE "" summary) ++ String QUOTE "" else summary in
  let date_added := today rt in
  author <-- dict_getitem metadata "author" ;;
  pubdate <-- dict_getitem metadata "pubdate" ;;
  url <-- dict_getitem metadata "url" ;;
  key <-- dict_getitem metadata "key" ;;
  ret (join nl
         [ "---";
           "title: " ++ title;
           "authors: " ++ format_value rt author;
           "tldr: " ++ summary;
           "venue: OpenReview";
           "date_published: " ++ format_value rt pubdate;
           "rating: 0/5";
           "date_added: " ++ date_added;
           "url: " ++ format_value rt url;
           "links: ";
           "tags:";
           "---";
           "> [!notes] Notes";
           "> Summary, Quotes, Thoughts, Questions, etc.";
           "";
           "---";
           "# PDF";
           "";
           "![[" ++ format_value rt key ++ ".pdf]]" ]).

Definition download_pdf (sys : System) (openreview_id filename : string) : io unit :=
  let pdf_url := "https://openreview.net/pdf?id=" ++ openreview_id in
  response <~~ requests_get sys pdf_url ;;
  if (status_code response =? 200)%Z then
    _ <~~ with_open sys filename "wb"
            (perform sys (Write filename (content response))) ;;
    perform sys (Print ("Downloaded: " ++ filename))
  else
    perform sys (Print ("Failed to download PDF: " ++ str_of_Z (status_code response))).

(** Links should be in the format https://openreview.net/pdf?id=<paper
    identifier>, https://openreview.net/forum?id=<paper identifier>. *)
Definition run (sys : System) (rt : Runtime)
    (openreview_request : string -> result json)
    (entries : list string) : io unit :=
  paper_ids <~~ lift (for_each (fun entry => last_item (split_str "id=" entry)) entries) ;;
  let bibtex_db := fetch_bibtex rt openreview_request paper_ids in
  for_io
    (fun paper_id =>
       metadata <~~ lift (dict_getitem bibtex_db paper_id) ;;
       key <~~ lift (dict_getitem metadata "key") ;;
       _ <~~ with_open sys (format_value rt key ++ ".md") "w"
               (text <~~ lift (generate_markdown_file rt metadata) ;;
                perform sys (Write (format_value rt key ++ ".md") text)) ;;
       key <~~ lift (dict_getitem metadata "key") ;;
       download_pdf sys paper_id (format_value rt key ++ ".pdf"))
    paper_ids.

(** The main program: read URLs from links.txt. *)
Definition main (sys : System) (rt : Runtime)
    (openreview_request : string -> result json) : io unit :=
  entries <~~ with_open sys "links.txt" "r"
                (lines <~~ read_lines sys "links.txt" ;;
                 io_ret (map strip
                           (List.filter (fun line => negb (String.eqb (strip line) ""))
                                        lines))) ;;
  run sys rt openreview_request entries.

End generate_openreview_md.

(* ================================================================== *)
(** * generate_md.py *)
(* ================================================================== *)

Module generate_md.

(** Read URLs from links.txt, and run each runner on its links. *)
Definition main (sys : System) (rt : Runtime)
    (arxiv_request : list string -> result ElementTree.Element)
    (openreview_request : string -> result json) : io unit :=
  entries <~~ with_open sys "./outputs/links.txt" "r"
                (lines <~~ read_lines sys "./outputs/links.txt" ;;
                 io_ret (map strip
                           (List.filter (fun line => negb (String.eqb (strip line) ""))
                                        lines))) ;;
  let entries_arxiv := List.filter (contains "arxiv") entries in
  let entries_openreview := List.filter (contains "openreview") entries in
  _ <~~ generate_arxiv_md.run sys rt arxiv_request entries_arxiv ;;
  generate_openreview_md.run sys rt openreview_request entries_openreview.

End generate_md.

(* ================================================================== *)
(** * Languages of patterns *)
(* ================================================================== *)

Definition language : Type := string -> Prop.

Definition cat (L1 L2 : language) : language :=
  fun s => exists a b, s = a ++ b /\ L1 a /\ L2 b.

(** What may follow a match: anything, or the end of the subject as [$]
    sees it. *)
Definition anywhere (t : string) : Prop := True.
Definition at_end (t : string) : Prop := t = "" \/ t = nl.

(** [r] reads exactly the words of [L], provided the rest satisfies [E]. *)
Definition recognises (r : regex) (L : language) (E : string -> Prop) : Prop :=
  forall n s t, In t (run n r s) <-> exists pre, s = pre ++ t /\ L pre /\ E t.

(* ================================================================== *)
(** * Identifiers, as the specification describes them *)
(* ================================================================== *)

Definition digits (s : string) : Prop := str_all is_decimal s = true.

(** An optional version suffix [vN]. *)
Definition version_suffix (v : string) : Prop :=
  v = "" \/ exists n, v = "v" ++ n /\ n <> "" /\ digits n.

(** New style: four digits, a period, four or more digits, optional [vN]. *)
Definition new_style_id (s : string) : Prop :=
  exists y n v,
    s = y ++ "." ++ n ++ v /\
    String.length y = 4%nat /\ digits y /\
    (4 <= String.length n)%nat /\ digits n /\
    version_suffix v.

(** The subject-area codes of the old style, each with its list of
    sub-categories. *)
Definition subject_areas : list (string * list string) :=
  [ ("math-ph", []); ("hep-ph", []); ("nucl-ex", []); ("nucl-th", []);
    ("gr-qc", []); ("astro-ph", []); ("hep-lat", []); ("quant-ph", []);
    ("hep-ex", []); ("hep-th", []);
    ("stat", ["AP"; "CO"; "ML"; "ME"; "TH"]);
    ("q-bio", ["BM"; "CB"; "GN"; "MN"; "NC"; "OT"; "PE"; "QM"; "SC"; "TO"]);
    ("cond-mat",
      ["dis-nn"; "mes-hall"; "mtrl-sci"; "other"; "soft"; "stat-mech";
       "str-el"; "supr-con"]);
    ("cs",
      ["AR"; "AI"; "CL"; "CC"; "CE"; "CG"; "GT"; "CV"; "CY"; "CR"; "DS";
       "DB"; "DL"; "DM"; "DC"; "GL"; "GR"; "HC"; "IR"; "IT"; "LG"; "LO";
       "MS"; "MA"; "MM"; "NI"; "NE"; "NA"; "OS"; "OH"; "PF"; "PL"; "RO";
       "SE"; "SD"; "SC"]);
    ("nlin", ["AO"; "CG"; "CD"; "SI"; "PS"]);
    ("physics",
      ["acc-ph"; "ao-ph"; "atom-ph"; "atm-clus"; "bio-ph"; "chem-ph";
       "class-ph"; "comp-ph"; "data-an"; "flu-dyn"; "gen-ph"; "geo-ph";
       "hist-ph"; "ins-det"; "med-ph"; "optics"; "ed-ph"; "soc-ph";
       "plasm-ph"; "pop-ph"; "space-ph"]);
    ("math",
      ["AG"; "AT"; "AP"; "CT"; "CA"; "CO"; "AC"; "CV"; "DG"; "DS"; "FA";
       "GM"; "GN"; "GT"; "GR"; "HO"; "IT"; "KT"; "LO"; "MP"; "MG"; "NT";
       "NA"; "OA"; "OC"; "PR"; "QA"; "RT"; "RA"; "SP"; "ST"; "SG"]) ].

(** A subject area, optionally followed by a dot and one of its
    sub-categories. *)
Definition area_code (w : string) : Prop :=
  exists area subs sub,
    In (area, subs) subject_areas /\
    (sub = "" \/ exists c, In c subs /\ sub = "." ++ c) /\
    w = area ++ sub.

(** Old style: an area code, a slash, exactly seven digits, optional [vN]. *)
Definition old_style_id (s : string) : Prop :=
  exists a n v,
    s = a ++ "/" ++ n ++ v /\
    area_code a /\
    String.length n = 7%nat /\ digits n /\
    version_suffix v.

Definition arxiv_identifier (s : string) : Prop :=
  new_style_id s \/ old_style_id s.

(** OpenReview: one or more characters, each a word character or a hyphen. *)
Definition openreview_identifier (s : string) : Prop :=
  s <> "" /\ str_all (fun c => is_word c || Ascii.eqb c "-") s = true.

(** The pattern of one row of [subject_areas]. *)
Definition area_regex (row : string * list string) : regex :=
  match snd row with
  | [] => Word (fst row)
  | c :: cs => generate_arxiv_md.with_sub (fst row) c cs
  end.

Definition no_line_feed (s : string) : bool :=
  str_all (fun c => negb (Ascii.eqb c LF)) s.

(* ================================================================== *)
(** * Sample inputs *)
(* ================================================================== *)

Module Samples.

Import ElementTree.
Import generate_arxiv_md.

Definition leaf (name : string) (t : string) : Element :=
  element (ATOM ++ name) ∅ (Some t) [].

Definition author (name : string) : Element :=
  element (ATOM ++ "author") ∅ None [leaf "name" name].

(** An Atom entry as the arXiv API returns them. *)
Definition entry (id_url : string) (names : list string) (title : string) : Element :=
  element (ATOM ++ "entry") ∅ None
    ([leaf "id" id_url; leaf "updated" "2023-10-03T09:00:00Z";
      leaf "published" "2023-10-02T17:59:59Z"; leaf "title" title;
      leaf "summary" "  We learn things. "]
     ++ map author names
     ++ [element (ARXIV ++ "primary_category") {["term" := "cs.LG"]} None []])%list.

Definition feed (entries : list Element) : Element :=
  element (ATOM ++ "feed") ∅ None entries.

(** An entry whose id carries a version, one whose id carries none, one
    whose id is not an [/abs/] URL, and one with a blank second author. *)
Definition versioned : Element :=
  entry "http://arxiv.org/abs/2310.01234v2" ["Jane Q. Smith"] "Deep: Learning Things".
Definition unversioned : Element :=
  entry "http://arxiv.org/abs/2310.01234" ["Jane Q. Smith"] "Deep: Learning Things".
Definition short_id : Element :=
  entry "abc" ["Jane Q. Smith"] "Deep: Learning Things".
Definition pdf_link : Element :=
  entry "https://arxiv.org/pdf/2310.01234v2" ["Jane Q. Smith"] "Deep: Learning Things".
Definition blank_coauthor : Element :=
  entry "http://arxiv.org/abs/2310.01234v2" ["Jane Q. Smith"; " "] "Deep: Learning Things".

(** A well-behaved arXiv API: one entry for each requested id, in the
    order of the request. *)
Definition arxiv_request (ids : list string) : result Element :=
  ret (feed (map (fun id => entry ("http://arxiv.org/abs/" ++ id ++ "v2")
                                  ["Jane Q. Smith"] "Deep: Learning Things")
                 ids)).

(** The title [Foo: "Bar"], and a metadata record that carries it. *)
Definition quoted_title : string :=
  "Foo: " ++ String QUOTE ("Bar" ++ String QUOTE "").

Definition quoted_metadata : gmap string string :=
  list_to_map
    [ ("key", "smith2023foo"); ("author", "Jane Q. Smith");
      ("title", quoted_title); ("eprint", "2310.01234v2");
      ("archivePrefix", "arXiv"); ("primaryClass", "cs.LG");
      ("year", "2023"); ("month", "10");
      ("pubdate", "2023-10-02T17:59:59Z"); ("doi", "");
      ("url", "http://arxiv.org/abs/2310.01234v2"); ("note", "");
      ("summary", "We  learn things.") ].

Definition plain_metadata : gmap string string :=
  <["title" := "Deep   Learning Things"]> quoted_metadata.

(** A fixed clock and time zone. *)
Definition runtime : Runtime :=
  {| today := "2024-01-15 (Mon)";
     reformat_pubdate := fun s => ret (slice_to s 10);
     year_of_timestamp := fun _ => ret "2023";
     date_of_timestamp := fun _ => ret "2023-10-02";
     str_of_value := fun _ => "" |}.

Definition value (j : json) : json := JDict [("value", j)].

(** A note as the OpenReview API returns them, and the same note with an
    empty title and no abstract. *)
Definition note : json :=
  JDict [ ("id", JStr "abc-D_9");
          ("forum", JStr "abc-D_9");
          ("pdate", JInt 1696269599000);
          ("content",
            JDict [ ("title", value (JStr "Deep: Learning Things"));
                    ("authors", value (JList [JStr "Jane Q. Smith"]));
                    ("abstract", value (JStr "We learn things."));
                    ("pdf", value (JStr "/pdf/0123.pdf"));
                    ("venueid", value (JStr "ICLR.cc/2024/Conference")) ]) ].

Definition untitled_note : json :=
  JDict [ ("id", JStr "abc-D_9");
          ("forum", JStr "abc-D_9");
          ("content",
            JDict [ ("title", value (JStr ""));
                    ("authors", value (JList [JStr "Jane Q. Smith"])) ]) ].

End Samples.

(* ================================================================== *)
(** * Notions the specification uses *)
(* ================================================================== *)

(** [sub] occurs in [s] as a substring. *)
Definition occurs (sub s : string) : Prop := exists a b, s = a ++ sub ++ b.

(** The text of the first child of [xml] called [name], stripped; the
    empty string when there is no such child or it has no text. *)
Definition field_or_empty (xml : ElementTree.Element) (name : string) : string :=
  match ElementTree.find name xml with
  | Some e =>
      match ElementTree.text e with
      | Some t => strip t
      | None => ""
      end
  | None => ""
  end.

(** The [term] attribute of the primary category, or the empty string. *)
Definition term_or_empty (xml : ElementTree.Element) : string :=
  match ElementTree.find (generate_arxiv_md.ARXIV ++ "primary_category") xml with
  | Some e =>
      match ElementTree.attrib e !! "term" with
      | Some v => v
      | None => ""
      end
  | None => ""
  end.

(** [v] followed by one or more digits: a version suffix that is there. *)
Definition versioned_id (base id : string) : Prop :=
  exists n, id = base ++ "v" ++ n /\ n <> "" /\ digits n.

Definition no_such_publication : exception := Exception "No such publication".

(** The last and the first whitespace-separated token of a string. *)
Definition last_token (s : string) : option string :=
  match rev (split s) with
  | w :: _ => Some w
  | [] => None
  end.

Definition first_token (s : string) : option string :=
  match split s with
  | w :: _ => Some w
  | [] => None
  end.

Definition has_token (s : string) : Prop := split s <> [].

(** [s] without the occurrences of [c]; does [c] occur in [s]? *)
Fixpoint without (c : ascii) (s : string) : string :=
  match s with
  | EmptyString => EmptyString
  | String a s' => if Ascii.eqb a c then without c s' else String a (without c s')
  end.

Fixpoint mentions (c : ascii) (s : string) : bool :=
  match s with
  | EmptyString => false
  | String a s' => Ascii.eqb a c || mentions c s'
  end.

(** The title component of a citation key: the first word of the title,
    lowercased, colons removed; empty when the title has no word. *)
Definition title_component (title : string) : string :=
  match first_token title with
  | Some w => without ":" (lower w)
  | None => ""
  end.

(** lowercase(last name of first author) + year + title component *)
Definition expected_key (first_author year title : string) : option string :=
  match last_token first_author with
  | Some w => Some (lower w ++ year ++ title_component title)
  | None => None
  end.

(* ================================================================== *)
(** * Notes, as the specification describes them *)
(* ================================================================== *)

(** Whitespace normalisation: the words, separated by single spaces. *)
Definition collapse (s : string) : string := join " " (split s).

(** A field with a colon goes between double quotes, its own double
    quotes removed; any other field goes as it is. *)
Definition yaml_safe (field : string) : string :=
  if mentions ":" field
  then String QUOTE (without QUOTE field) ++ String QUOTE ""
  else field.

(** The text of a note: the front matter, the prompt for notes and the
    embedded PDF. *)
Definition note_text
    (venue title authors tldr date_published date_added url key : string) : string :=
  join nl
    [ "---";
      "title: " ++ title;
      "authors: " ++ authors;
      "tldr: " ++ tldr;
      "venue: " ++ venue;
      "date_published: " ++ date_published;
      "rating: 0/5";
      "date_added: " ++ date_added;
      "url: " ++ url;
      "links: ";
      "tags:";
      "---";
      "> [!notes] Notes";
      "> Summary, Quotes, Thoughts, Questions, etc.";
      "";
      "---";
      "# PDF";
      "";
      "![[" ++ key ++ ".pdf]]" ].

Fixpoint lines_until (stop : string) (lines : list string) : list string :=
  match lines with
  | [] => []
  | l :: ls => if String.eqb l stop then [] else l :: lines_until stop ls
  end.

(** The reader of the specification's round trip, which re-parses the
    rendered front matter for its [title:] and [url:] lines (the program
    itself never reads a note back).  The front matter is the block of
    lines between the opening [---] and the next [---]; the value of a
    field is what follows [name: ] on the first line that starts with it. *)
Definition front_matter (content : string) : list string :=
  match split_on LF content with
  | first :: rest => if String.eqb first "---" then lines_until "---" rest else []
  | [] => []
  end.

Definition front_matter_field (name content : string) : option string :=
  match List.find (startswith (name ++ ": ")) (front_matter content) with
  | Some line => Some (str_drop (String.length name + 2) line)
  | None => None
  end.

(** The keys of a full OpenReview metadata record. *)
Definition openreview_keys : gset string :=
  list_to_set ["key"; "author"; "title"; "eprint"; "url"; "summary"; "pubdate"; "venue"].

(** The record the batch stores for one OpenReview id. *)
Definition openreview_record
    (rt : Runtime) (openreview_request : string -> result json) (id : string)
  : gmap string json :=
  if generate_openreview_md.is_valid id then
    try_except
      (notes <-- openreview_request id ;;
       if truthy notes then
         note <-- getitem0 notes ;;
         ref <-- generate_openreview_md.Reference.__init__ rt note ;;
         generate_openreview_md.Reference.to_dict rt ref
       else ret {["error" := JStr "No notes found"]})
      (fun error => {["error" := JStr (str_of_exception error)]})
  else {["error" := JStr "Invalid OpenReview identifier"]}.

Definition no_space (w : string) : bool :=
  str_all (fun c => negb (is_whitespace c)) w.

Definition last_name (name : string) : string :=
  match last_token name with
  | Some w => lower w
  | None => ""
  end.

(* ================================================================== *)
(** * Notions for the batches and the runs *)
(* ================================================================== *)

(** The keys of a full arXiv metadata record. *)
Definition arxiv_keys : gset string :=
  list_to_set ["key"; "author"; "title"; "eprint"; "archivePrefix"; "primaryClass";
               "year"; "month"; "pubdate"; "doi"; "url"; "note"; "summary"].

(** The record the arXiv batch stores for one entry of the response. *)
Definition arxiv_record (entry : ElementTree.Element) : gmap string string :=
  try_except
    (ref <-- generate_arxiv_md.Reference.__init__ entry ;;
     generate_arxiv_md.Reference.to_dict ref)
    (fun error => {["error" := str_of_exception error]}).

Definition invalid_arxiv_record : gmap string string :=
  {["error" := "Invalid arXiv identifier"]}.

(** A one-field error record. *)
Definition error_record {V} (d : gmap string V) : Prop :=
  exists msg, d = {["error" := msg]}.

(** What follows the last slash of a link, and what follows its last [id=]. *)
Definition last_segment (entry : string) : string :=
  List.last (split_on "/" entry) "".

Definition last_id (entry : string) : string :=
  List.last (split_str "id=" entry) "".

(* ================================================================== *)
(** * Properties *)
(* ================================================================== *)

(** ** Strings *)

Lemma append_empty_r (s : string) : s ++ "" = s.
Proof. induction s as [|c s IH]; simpl; [reflexivity | now rewrite IH]. Qed.

Lemma append_assoc (a b c : string) : (a ++ b) ++ c = a ++ (b ++ c).
Proof. induction a as [|x a IH]; simpl; [reflexivity | now rewrite IH]. Qed.

Lemma length_append (a b : string) :
  String.length (a ++ b) = (String.length a + String.length b)%nat.
Proof. induction a as [|x a IH]; simpl; [reflexivity | now rewrite IH]. Qed.

Lemma append_inv_head (a b c : string) : a ++ b = a ++ c -> b = c.
Proof. induction a as [|x a IH]; simpl; intros H; [assumption | injection H; auto]. Qed.

Lemma str_all_append (p : ascii -> bool) (a b : string) :
  str_all p (a ++ b) = str_all p a && str_all p b.
Proof.
  induction a as [|x a IH]; simpl; [reflexivity |].
  rewrite IH. now rewrite andb_assoc.
Qed.

(** ** The matcher: what each construct reads *)

Lemma in_run_seq n r1 r2 s t :
  In t (run n (Seq r1 r2) s) <-> exists m, In m (run n r1 s) /\ In t (run n r2 m).
Proof. simpl. apply in_flat_map. Qed.

Lemma re_match_true r s :
  re_match r s = true <-> exists t, In t (run (String.length s) r s).
Proof.
  unfold re_match. destruct (run _ r s) as [|t l]; split.
  - discriminate.
  - intros [t []].
  - intros _. exists t. now left.
  - reflexivity.
Qed.

Lemma recognises_ext r (L L' : language) E :
  recognises r L E -> (forall s, L s <-> L' s) -> recognises r L' E.
Proof.
  intros H HL n s t. rewrite (H n s t).
  split; intros (pre & ? & ? & ?); exists pre; repeat split; auto; now apply HL.
Qed.

Lemma recognises_empty : recognises Empty (eq "") anywhere.
Proof.
  intros n s t. simpl. split.
  - intros [<- | []]. exists "". repeat split.
  - intros (pre & -> & <- & _). now left.
Qed.

Lemma recognises_literal c : recognises (Literal c) (eq (String c "")) anywhere.
Proof.
  intros n s t. simpl. split.
  - destruct s as [|a s]; [intros [] |].
    destruct (Ascii.eqb_spec a c) as [-> | ?]; [| intros []].
    intros [<- | []]. exists (String c ""). repeat split.
  - intros (pre & -> & <- & _). simpl. rewrite Ascii.eqb_refl. now left.
Qed.

Lemma recognises_in_set p :
  recognises (In_set p) (fun w => exists a, w = String a "" /\ p a = true) anywhere.
Proof.
  intros n s t. simpl. split.
  - destruct s as [|a s]; [intros [] |].
    destruct (p a) eqn:Hp; [| intros []].
    intros [<- | []]. exists (String a ""). repeat split. now exists a.
  - intros (pre & -> & (a & -> & Hp) & _). simpl. rewrite Hp. now left.
Qed.

Lemma recognises_at_end : recognises At_end (eq "") at_end.
Proof.
  intros n s t. simpl. split.
  - destruct s as [|a [|b s]].
    + intros [<- | []]. exists "". repeat split. now left.
    + destruct (Ascii.eqb_spec a LF) as [-> | ?]; [| intros []].
      intros [<- | []]. exists "". repeat split. now right.
    + intros [].
  - intros (pre & -> & <- & [-> | ->]); simpl; now left.
Qed.

Lemma recognises_seq r1 r2 L1 L2 E :
  recognises r1 L1 anywhere -> recognises r2 L2 E ->
  recognises (Seq r1 r2) (cat L1 L2) E.
Proof.
  intros H1 H2 n s t. rewrite in_run_seq. split.
  - intros (m & Hm & Ht). apply H1 in Hm as (a & -> & Ha & _).
    apply H2 in Ht as (b & -> & Hb & He).
    exists (a ++ b). rewrite append_assoc. repeat split; auto.
    now exists a, b.
  - intros (pre & -> & (a & b & -> & Ha & Hb) & He).
    exists (b ++ t). split.
    + apply H1. exists a. rewrite append_assoc. repeat split; auto.
    + apply H2. exists b. auto.
Qed.

Lemma recognises_branch r1 r2 L1 L2 E :
  recognises r1 L1 E -> recognises r2 L2 E ->
  recognises (Branch r1 r2) (fun w => L1 w \/ L2 w) E.
Proof.
  intros H1 H2 n s t. simpl. rewrite in_app_iff, (H1 n s t), (H2 n s t). split.
  - intros [(pre & ? & ? & ?) | (pre & ? & ? & ?)]; exists pre; auto.
  - intros (pre & ? & [? | ?] & ?); [left | right]; exists pre; auto.
Qed.

Lemma recognises_opt r L :
  recognises r L anywhere -> recognises (Opt r) (fun w => L w \/ w = "") anywhere.
Proof.
  intros H. unfold Opt.
  eapply recognises_ext.
  - apply recognises_branch; [exact H | apply recognises_empty].
  - intros s. simpl. split; intros [? | ?]; auto.
Qed.

Lemma recognises_word w : recognises (Word w) (eq w) anywhere.
Proof.
  induction w as [|c w IH]; simpl.
  - apply recognises_empty.
  - eapply recognises_ext.
    + apply recognises_seq; [apply recognises_literal | exact IH].
    + intros s. split.
      * intros (a & b & -> & <- & <-). reflexivity.
      * intros <-. now exists (String c ""), w.
Qed.

Lemma recognises_branches_words w ws :
  recognises (Branches (Word w) (map Word ws)) (fun s => In s (w :: ws)) anywhere.
Proof.
  revert w. induction ws as [|w' ws IH]; intros w; simpl.
  - eapply recognises_ext; [apply recognises_word |].
    intros s. split; [intros <-; now left | intros [<- | []]; reflexivity].
  - eapply recognises_ext.
    + apply recognises_branch; [apply recognises_word | apply IH].
    + intros s. simpl. tauto.
Qed.

Lemma recognises_times_set k p :
  recognises (Times k (In_set p))
    (fun w => String.length w = k /\ str_all p w = true) anywhere.
Proof.
  induction k as [|k IH]; simpl.
  - eapply recognises_ext; [apply recognises_empty |].
    intros s. split; [intros <-; now split |].
    intros [H _]. destruct s; [reflexivity | discriminate].
  - eapply recognises_ext.
    + apply recognises_seq; [apply recognises_in_set | exact IH].
    + intros s. split.
      * intros (a & b & -> & (c & -> & Hc) & Hk & Hb). simpl.
        rewrite Hk, Hc, Hb. now split.
      * intros [Hk Hs]. destruct s as [|c s]; [discriminate |].
        simpl in Hk, Hs. apply andb_true_iff in Hs as [Hc Hs].
        exists (String c ""), s. repeat split; auto.
        now exists c.
Qed.

Lemma star_run_set p n fuel s t :
  (String.length s <= fuel)%nat ->
  In t (star_run (run n (In_set p)) fuel s) <->
  exists pre, s = pre ++ t /\ str_all p pre = true.
Proof.
  revert s. induction fuel as [|fuel IH]; intros s Hlen.
  - destruct s; [| simpl in Hlen; lia]. simpl. split.
    + intros [<- | []]. now exists "".
    + intros (pre & H & _). destruct pre; [| discriminate]. now left.
  - cbn [star_run]. rewrite in_app_iff, in_flat_map. split.
    + intros [(m & Hm & Ht) | [<- | []]]; [| now exists ""].
      destruct s as [|a s]; [destruct Hm |]. cbn [run] in Hm.
      destruct (p a) eqn:Hp; [| destruct Hm].
      destruct Hm as [<- | []].
      simpl in Hlen, Ht. rewrite (proj2 (Nat.ltb_lt _ _)) in Ht by lia.
      apply IH in Ht as (pre & -> & Hpre); [| lia].
      exists (String a pre). simpl. now rewrite Hp, Hpre.
    + intros (pre & -> & Hpre). destruct pre as [|a pre]; [right; now left |].
      left. simpl in Hpre. apply andb_true_iff in Hpre as [Hp Hpre].
      exists (pre ++ t). cbn [append run]. rewrite Hp. split; [now left |].
      simpl. rewrite (proj2 (Nat.ltb_lt _ _)) by lia.
      simpl in Hlen. apply IH; [lia |]. now exists pre.
Qed.

Lemma recognises_star_set p :
  recognises (Star (In_set p)) (fun w => str_all p w = true) anywhere.
Proof.
  intros n s t.
  change (run n (Star (In_set p)) s)
    with (star_run (run n (In_set p)) (String.length s) s).
  rewrite star_run_set by lia.
  split; intros (pre & ? & ?); exists pre; repeat split; tauto.
Qed.

Lemma recognises_plus_set p :
  recognises (Plus (In_set p)) (fun w => w <> "" /\ str_all p w = true) anywhere.
Proof.
  unfold Plus. eapply recognises_ext.
  - apply recognises_seq; [apply recognises_in_set | apply recognises_star_set].
  - intros s. split.
    + intros (a & b & -> & (c & -> & Hc) & Hb). simpl. rewrite Hc, Hb.
      split; [discriminate | reflexivity].
    + intros [Hne Hs]. destruct s as [|c s]; [congruence |].
      simpl in Hs. apply andb_true_iff in Hs as [Hc Hs].
      exists (String c ""), s. repeat split; auto. now exists c.
Qed.

Lemma recognises_at_least_set k p :
  recognises (At_least k (In_set p))
    (fun w => (k <= String.length w)%nat /\ str_all p w = true) anywhere.
Proof.
  unfold At_least. eapply recognises_ext.
  - apply recognises_seq; [apply recognises_times_set | apply recognises_star_set].
  - intros s. split.
    + intros (a & b & -> & (Hk & Ha) & Hb).
      rewrite length_append, str_all_append, Ha, Hb. split; [lia | reflexivity].
    + intros [Hk Hs]. revert s Hk Hs. induction k as [|k IH]; intros s Hk Hs.
      * exists "", s. repeat split; auto.
      * destruct s as [|c s]; [simpl in Hk; lia |].
        simpl in Hk, Hs. apply andb_true_iff in Hs as [Hc Hs].
        destruct (IH s) as (a & b & -> & (Hka & Ha) & Hb); [lia | assumption |].
        exists (String c a), b. simpl. rewrite Hka, Hc, Ha. repeat split; auto.
Qed.

(** A pattern of the shape [^ body $] accepts the strings of the body's
    language, and those strings followed by one line feed. *)
Lemma re_match_anchored r L s :
  recognises r L at_end ->
  re_match (Seq At_beginning r) s = true <->
  L s \/ exists s0, s = s0 ++ nl /\ L s0.
Proof.
  intros H. rewrite re_match_true. split.
  - intros (t & Ht). apply in_run_seq in Ht as (m & Hm & Ht).
    simpl in Hm. rewrite Nat.eqb_refl in Hm. destruct Hm as [<- | []].
    apply H in Ht as (pre & -> & HL & [-> | ->]).
    + left. now rewrite append_empty_r.
    + right. now exists pre.
  - intros [HL | (s0 & -> & HL)].
    + exists "". apply in_run_seq. exists s. split.
      * simpl. rewrite Nat.eqb_refl. now left.
      * apply H. exists s. rewrite append_empty_r. repeat split; auto. now left.
    + exists nl. apply in_run_seq. exists (s0 ++ nl). split.
      * simpl. rewrite Nat.eqb_refl. now left.
      * apply H. exists s0. repeat split; auto. now right.
Qed.

Lemma recognises_branches_map {A} (f : A -> regex) (L : A -> language) a l :
  (forall x, In x (a :: l) -> recognises (f x) (L x) anywhere) ->
  recognises (Branches (f a) (map f l))
    (fun w => exists x, In x (a :: l) /\ L x w) anywhere.
Proof.
  revert a. induction l as [|b l IH]; intros a H; simpl.
  - eapply recognises_ext; [apply H; now left |].
    intros s. split; [intros Hs; exists a; split; [now left | exact Hs] |].
    intros (x & [<- | []] & Hx). exact Hx.
  - eapply recognises_ext.
    + apply recognises_branch; [apply H; now left |].
      apply IH. intros x Hx. apply H. now right.
    + intros s. split.
      * intros [Hs | (x & Hx & Hs)]; [exists a | exists x]; simpl; auto.
      * intros (x & [<- | Hx] & Hs); [now left |]. right. now exists x.
Qed.

(** ** arXiv identifiers *)

Section ArxivIdentifiers.
Import generate_arxiv_md.

Lemma recognises_version : recognises version version_suffix anywhere.
Proof.
  unfold version. eapply recognises_ext.
  - apply recognises_opt. apply recognises_seq;
      [apply recognises_literal | apply (recognises_plus_set is_decimal)].
  - intros s. unfold version_suffix, digits. split.
    + intros [(a & b & -> & <- & Hne & Hb) | ->]; [right | now left].
      now exists b.
    + intros [-> | (n & -> & Hne & Hn)]; [now right | left].
      now exists "v", n.
Qed.

Lemma recognises_version_at_end :
  recognises (version ;;; At_end) version_suffix at_end.
Proof.
  eapply recognises_ext.
  - apply recognises_seq; [apply recognises_version | apply recognises_at_end].
  - intros s. split.
    + intros (a & b & -> & Ha & <-). now rewrite append_empty_r.
    + intros Hs. exists s, "". now rewrite append_empty_r.
Qed.

Lemma recognises_new_style :
  recognises (Times 4 digit ;;; Literal "." ;;; At_least 4 digit ;;; version ;;; At_end)
    new_style_id at_end.
Proof.
  eapply recognises_ext.
  - apply recognises_seq; [apply recognises_times_set |].
    apply recognises_seq; [apply recognises_literal |].
    apply recognises_seq; [apply recognises_at_least_set |].
    apply recognises_version_at_end.
  - intros s. unfold new_style_id, digits. split.
    + intros (y & ? & -> & (Hy & Hdy) & d & ? & -> & <- & n & v & -> & (Hn & Hdn) & Hv).
      exists y, n, v. repeat split; auto.
    + intros (y & n & v & -> & Hy & Hdy & Hn & Hdn & Hv).
      exists y, ("." ++ n ++ v). repeat split; auto.
      exists ".", (n ++ v). repeat split; auto.
      exists n, v. repeat split; auto.
Qed.

Lemma recognises_area_regex row :
  recognises (area_regex row)
    (fun w => exists sub,
       (sub = "" \/ exists c, In c (snd row) /\ sub = "." ++ c) /\
       w = fst row ++ sub) anywhere.
Proof.
  destruct row as [area [|c cs]]; unfold area_regex; cbn [fst snd].
  - eapply recognises_ext; [apply recognises_word |].
    intros s. split.
    + intros <-. exists "". rewrite append_empty_r. split; auto.
    + intros (sub & [-> | (c & [] & _)] & ->). now rewrite append_empty_r.
  - unfold with_sub. eapply recognises_ext.
    + apply recognises_seq; [apply recognises_word |].
      apply recognises_opt. apply recognises_seq; [apply recognises_literal |].
      apply recognises_branches_words.
    + intros s. split.
      * intros (a & b & -> & <- & [(d & w & -> & <- & Hw) | ->]).
        -- exists ("." ++ w). split; [right; now exists w | reflexivity].
        -- exists "". split; [now left | reflexivity].
      * intros (sub & [-> | (w & Hw & ->)] & ->).
        -- exists area, "". repeat split; auto.
        -- exists area, ("." ++ w). repeat split; auto.
           left. now exists ".", w.
Qed.

Lemma OLD_STYLE_area_rows :
  OLD_STYLE_area =
  Branches (area_regex ("math-ph", [])) (map area_regex (tl subject_areas)).
Proof. reflexivity. Qed.

Lemma recognises_area : recognises OLD_STYLE_area area_code anywhere.
Proof.
  rewrite OLD_STYLE_area_rows. eapply recognises_ext.
  - apply (recognises_branches_map area_regex
             (fun row w => exists sub,
                (sub = "" \/ exists c, In c (snd row) /\ sub = "." ++ c) /\
                w = fst row ++ sub)).
    intros row _. apply recognises_area_regex.
  - intros s. unfold area_code. split.
    + intros ([area subs] & Hin & sub & Hsub & ->). now exists area, subs, sub.
    + intros (area & subs & sub & Hin & Hsub & ->).
      exists (area, subs). split; [exact Hin | now exists sub].
Qed.

Lemma recognises_old_style :
  recognises (OLD_STYLE_area ;;; Literal "/" ;;; Times 7 digit ;;; version ;;; At_end)
    old_style_id at_end.
Proof.
  eapply recognises_ext.
  - apply recognises_seq; [apply recognises_area |].
    apply recognises_seq; [apply recognises_literal |].
    apply recognises_seq; [apply recognises_times_set |].
    apply recognises_version_at_end.
  - intros s. unfold old_style_id, digits. split.
    + intros (a & ? & -> & Ha & d & ? & -> & <- & n & v & -> & (Hn & Hdn) & Hv).
      exists a, n, v. repeat split; auto.
    + intros (a & n & v & -> & Ha & Hn & Hdn & Hv).
      exists a, ("/" ++ n ++ v). repeat split; auto.
      exists "/", (n ++ v). repeat split; auto.
      exists n, v. repeat split; auto.
Qed.

(** What [is_valid] accepts: the identifiers, and the identifiers followed
    by one line feed, which [$] lets through. *)
Lemma is_valid_accepts s :
  is_valid s = true <->
  arxiv_identifier s \/ exists s0, s = s0 ++ nl /\ arxiv_identifier s0.
Proof.
  unfold is_valid, arxiv_identifier. rewrite orb_true_iff.
  unfold NEW_STYLE, OLD_STYLE.
  rewrite (re_match_anchored _ _ s recognises_new_style).
  rewrite (re_match_anchored _ _ s recognises_old_style).
  split.
  - intros [[H | (s0 & -> & H)] | [H | (s0 & -> & H)]]; eauto.
  - intros [[H | H] | (s0 & -> & [H | H])]; eauto 6.
Qed.

End ArxivIdentifiers.

(** No identifier contains a line feed. *)

Lemma str_all_impl (p q : ascii -> bool) s :
  (forall c, p c = true -> q c = true) -> str_all p s = true -> str_all q s = true.
Proof.
  intros H. induction s as [|c s IH]; simpl; [reflexivity |].
  rewrite !andb_true_iff. intros [Hc Hs]. auto.
Qed.

Lemma no_line_feed_append a b :
  no_line_feed (a ++ b) = no_line_feed a && no_line_feed b.
Proof. apply str_all_append. Qed.

Lemma no_line_feed_nl s : no_line_feed (s ++ nl) = false.
Proof.
  rewrite no_line_feed_append. replace (no_line_feed nl) with false by reflexivity.
  apply andb_false_r.
Qed.

Lemma digits_no_line_feed s : digits s -> no_line_feed s = true.
Proof.
  apply str_all_impl. intros c Hc.
  destruct (Ascii.eqb_spec c LF) as [-> | ?]; [discriminate Hc | reflexivity].
Qed.

Lemma version_no_line_feed v : version_suffix v -> no_line_feed v = true.
Proof.
  intros [-> | (n & -> & _ & Hn)]; [reflexivity |].
  rewrite no_line_feed_append, (digits_no_line_feed n Hn). reflexivity.
Qed.

Lemma area_code_no_line_feed a : area_code a -> no_line_feed a = true.
Proof.
  assert (Htab : forallb (fun row => no_line_feed (fst row) && forallb no_line_feed (snd row))
                   subject_areas = true) by (vm_compute; reflexivity).
  intros (area & subs & sub & Hin & Hsub & ->).
  rewrite forallb_forall in Htab. apply Htab in Hin. cbn [fst snd] in Hin.
  apply andb_true_iff in Hin as [Harea Hsubs].
  rewrite no_line_feed_append, Harea. simpl.
  destruct Hsub as [-> | (c & Hc & ->)]; [reflexivity |].
  rewrite forallb_forall in Hsubs.
  rewrite no_line_feed_append, (Hsubs c Hc). reflexivity.
Qed.

Lemma arxiv_identifier_no_line_feed s :
  arxiv_identifier s -> no_line_feed s = true.
Proof.
  intros [(y & n & v & -> & _ & Hy & _ & Hn & Hv) | (a & n & v & -> & Ha & _ & Hn & Hv)].
  - rewrite !no_line_feed_append, (digits_no_line_feed y Hy),
      (digits_no_line_feed n Hn), (version_no_line_feed v Hv). reflexivity.
  - rewrite !no_line_feed_append, (area_code_no_line_feed a Ha),
      (digits_no_line_feed n Hn), (version_no_line_feed v Hv). reflexivity.
Qed.

(** C2, as stated, fails: [$] also matches before a final line feed, so a
    valid identifier followed by a line feed is accepted although it does
    not match either alternative over the full string. *)
Lemma arxiv_is_valid_not_full_match :
  generate_arxiv_md.is_valid ("2310.01234" ++ nl) = true /\
  ~ arxiv_identifier ("2310.01234" ++ nl).
Proof.
  split; [vm_compute; reflexivity |].
  intros H. apply arxiv_identifier_no_line_feed in H.
  rewrite no_line_feed_nl in H. discriminate.
Qed.

(** C2 (amended): the arXiv [is_valid] returns true exactly for the strings
    that match the new-style or the old-style alternative, either over the
    full string or followed by exactly one final line feed; the six examples
    of the specification come out as it says. *)
Theorem arxiv_is_valid_spec :
  (forall s, generate_arxiv_md.is_valid s = true <->
     arxiv_identifier s \/ exists s0, s = s0 ++ nl /\ arxiv_identifier s0) /\
  generate_arxiv_md.is_valid "2310.01234" = true /\
  generate_arxiv_md.is_valid "2310.01234v2" = true /\
  generate_arxiv_md.is_valid "hep-th/0601001" = true /\
  generate_arxiv_md.is_valid "abc123" = false /\
  generate_arxiv_md.is_valid "2310.123" = false /\
  generate_arxiv_md.is_valid "xx-yy/0601001" = false.
Proof.
  split; [exact is_valid_accepts |].
  repeat split; vm_compute; reflexivity.
Qed.

(** On a string without line feed, such as a stripped line of the links
    file, [is_valid] is the full match. *)
Lemma arxiv_is_valid_single_line s :
  no_line_feed s = true ->
  (generate_arxiv_md.is_valid s = true <-> arxiv_identifier s).
Proof.
  intros Hs. rewrite is_valid_accepts. split; [| now left].
  intros [H | (s0 & -> & _)]; [exact H |].
  rewrite no_line_feed_nl in Hs. discriminate.
Qed.

(** ** OpenReview identifiers *)

Lemma recognises_openreview :
  recognises (Plus (In_set generate_openreview_md.word_or_hyphen) ;;; At_end)
    openreview_identifier at_end.
Proof.
  eapply recognises_ext.
  - apply recognises_seq; [apply recognises_plus_set | apply recognises_at_end].
  - intros s. unfold openreview_identifier. split.
    + intros (a & b & -> & Ha & <-). now rewrite append_empty_r.
    + intros Hs. exists s, "". now rewrite append_empty_r.
Qed.

(** C8, as stated, fails: a string whose last character is a line feed,
    which is neither a word character nor a hyphen, is accepted. *)
Lemma openreview_is_valid_not_full_match :
  generate_openreview_md.is_valid ("abc" ++ nl) = true /\
  ~ openreview_identifier ("abc" ++ nl).
Proof.
  split; [vm_compute; reflexivity |].
  intros [_ H]. vm_compute in H. discriminate.
Qed.

(** C8 (amended): the OpenReview [is_valid] returns true if and only if the
    string consists of one or more word characters or hyphens, optionally
    followed by exactly one final line feed; a string with a space or an
    exclamation mark is rejected. *)
Theorem openreview_is_valid_spec :
  (forall s, generate_openreview_md.is_valid s = true <->
     openreview_identifier s \/ exists s0, s = s0 ++ nl /\ openreview_identifier s0) /\
  generate_openreview_md.is_valid "not a valid id!!" = false.
Proof.
  split; [| vm_compute; reflexivity].
  intros s. unfold generate_openreview_md.is_valid, generate_openreview_md.OPENREVIEW_ID.
  apply re_match_anchored. exact recognises_openreview.
Qed.

(** ** Searching and slicing *)

Lemma startswith_spec p s : startswith p s = true <-> exists b, s = p ++ b.
Proof.
  revert s. induction p as [|a p IH]; intros s; simpl.
  - split; [intros _; now exists s | reflexivity].
  - destruct s as [|c s].
    + split; [discriminate | intros (b & H); discriminate].
    + rewrite andb_true_iff, IH. split.
      * intros [Hac (b & ->)]. apply Ascii.eqb_eq in Hac as ->. now exists b.
      * intros (b & H). injection H as -> ->. split; [apply Ascii.eqb_refl | now exists b].
Qed.

Lemma occurs_tail sub c s : occurs sub s -> occurs sub (String c s).
Proof. intros (a & b & ->). now exists (String c a), b. Qed.

Lemma find_from_absent sub s i : ~ occurs sub s -> find_from sub s i = (-1)%Z.
Proof.
  revert i. induction s as [|c s IH]; intros i Hno; simpl.
  - destruct (startswith sub "") eqn:Hp; [| reflexivity].
    exfalso. apply Hno. apply startswith_spec in Hp as (b & Hb). now exists "", b.
  - destruct (startswith sub (String c s)) eqn:Hp.
    + exfalso. apply Hno. apply startswith_spec in Hp as (b & Hb). now exists "", b.
    + apply IH. intros H. apply Hno. now apply occurs_tail.
Qed.

Lemma find_from_present sub s i : occurs sub s -> (i <= find_from sub s i)%Z.
Proof.
  revert i. induction s as [|c s IH]; intros i (a & b & Hs).
  - destruct a; [| discriminate]. simpl in Hs.
    cbn [find_from]. rewrite (proj2 (startswith_spec sub "")) by (now exists b). lia.
  - cbn [find_from]. destruct (startswith sub (String c s)) eqn:Hp; [lia |].
    destruct a as [|x a].
    + simpl in Hs. rewrite (proj2 (startswith_spec sub (String c s))) in Hp
        by (now exists b). discriminate.
    + injection Hs as -> ->.
      assert (H : occurs sub (a ++ sub ++ b)) by (now exists a, b).
      specialize (IH (i + 1)%Z H). lia.
Qed.

Lemma str_find_absent sub s : str_find sub s = (-1)%Z <-> ~ occurs sub s.
Proof.
  split.
  - intros H Hocc. apply (find_from_present sub s 0) in Hocc.
    unfold str_find in H. lia.
  - apply find_from_absent.
Qed.

Lemma length_str_drop n s : String.length (str_drop n s) = (String.length s - n)%nat.
Proof.
  revert s. induction n as [|n IH]; intros [|c s]; simpl; auto with arith.
Qed.

Lemma str_take_append a b : str_take (String.length a) (a ++ b) = a.
Proof. induction a as [|c a IH]; simpl; [now destruct b | now rewrite IH]. Qed.

Lemma slice_from_nat s (n : nat) : slice_from s (Z.of_nat n) = str_drop n s.
Proof.
  unfold slice_from, bound, len.
  destruct (Z.of_nat n <? 0)%Z eqn:Hn; [apply Z.ltb_lt in Hn; lia |].
  destruct (Nat.le_gt_cases n (String.length s)) as [Hle | Hgt].
  - f_equal. lia.
  - replace (Z.to_nat _) with (String.length s) by lia.
    assert (Hd : forall m t, (String.length t <= m)%nat -> str_drop m t = "").
    { intros m t Hm. remember (str_drop m t) as d eqn:Hd.
      assert (String.length d = 0)%nat by (subst d; rewrite length_str_drop; lia).
      now destruct d. }
    rewrite !Hd by lia. reflexivity.
Qed.

Lemma slice_to_nat a b : slice_to (a ++ b) (Z.of_nat (String.length a)) = a.
Proof.
  unfold slice_to, bound, len.
  destruct (Z.of_nat _ <? 0)%Z eqn:Hn; [apply Z.ltb_lt in Hn; lia |].
  rewrite length_append.
  replace (Z.to_nat _) with (String.length a) by lia.
  apply str_take_append.
Qed.

Lemma rfind_from_absent c s i :
  str_all (fun a => negb (Ascii.eqb c a)) s = true ->
  rfind_from (String c "") s i = (-1)%Z.
Proof.
  revert i. induction s as [|a s IH]; intros i; simpl; [reflexivity |].
  rewrite andb_true_iff. intros [Ha Hs]. rewrite (IH _ Hs). simpl.
  apply negb_true_iff in Ha. now rewrite Ha.
Qed.

Lemma rfind_from_last c a b i :
  (0 <= i)%Z ->
  str_all (fun x => negb (Ascii.eqb c x)) b = true ->
  rfind_from (String c "") (a ++ String c b) i = (i + Z.of_nat (String.length a))%Z.
Proof.
  revert i. induction a as [|x a IH]; intros i Hi Hb.
  - cbn [append rfind_from]. rewrite (rfind_from_absent c b _ Hb).
    simpl. rewrite Ascii.eqb_refl. simpl. lia.
  - cbn [append rfind_from]. rewrite IH by (auto; lia).
    rewrite (proj2 (Z.leb_le _ _)) by lia. cbn [String.length]. lia.
Qed.

(** ** arXiv references *)

Section ArxivReference.
Import ElementTree.
Import generate_arxiv_md.
Import generate_arxiv_md.Reference.

Lemma _field_text_value xml name namespace :
  _field_text xml name namespace = field_or_empty xml (namespace ++ name).
Proof.
  unfold _field_text, field_or_empty.
  destruct (find (namespace ++ name) xml) as [e |]; [| reflexivity].
  simpl. now destruct (text e).
Qed.

Lemma _category_value xml : _category xml = term_or_empty xml.
Proof.
  unfold _category, term_or_empty.
  destruct (find _ xml) as [e |]; [| reflexivity].
  simpl. unfold dict_getitem. now destruct (attrib e !! "term").
Qed.

Lemma _id_value xml :
  _id xml =
  let id_url := _field_text xml "id" ATOM in
  slice_from id_url (str_find "/abs/" id_url + 5).
Proof. reflexivity. Qed.

Lemma len_zero s : (len s =? 0)%Z = true <-> s = "".
Proof.
  unfold len. rewrite Z.eqb_eq. destruct s; simpl; split; try reflexivity; try discriminate; lia.
Qed.

Lemma length_zero {A} (l : list A) : (Z.of_nat (length l) =? 0)%Z = true <-> l = [].
Proof.
  rewrite Z.eqb_eq. destruct l; simpl; split; try reflexivity; try discriminate; lia.
Qed.

(** The constructor either raises "No such publication" or returns the
    record of the extracted fields. *)
Lemma __init___cases xml :
  (_id xml = "" \/ _authors xml = [] \/ _field_text xml "title" ATOM = "") /\
    __init__ xml = inl no_such_publication
  \/
  (_id xml <> "" /\ _authors xml <> [] /\ _field_text xml "title" ATOM <> "") /\
    exists ref, __init__ xml = inr ref /\
      id ref = _id xml /\ authors ref = _authors xml /\
      title ref = _field_text xml "title" ATOM /\
      url ref = _field_text xml "id" ATOM /\
      summary ref = _field_text xml "summary" ATOM /\
      category ref = _category xml /\
      pub_date ref = _field_text xml "published" ATOM /\
      updated ref = _field_text xml "updated" ATOM /\
      note ref = _field_text xml "journal_ref" ARXIV /\
      doi ref = _field_text xml "doi" ARXIV /\
      bare_id ref = slice_to (_id xml) (str_rfind "v" (_id xml)).
Proof.
  unfold __init__.
  destruct (len (_id xml) =? 0)%Z eqn:Hid;
    [left; split; [left; now apply len_zero | reflexivity] |].
  destruct (Z.of_nat (length (_authors xml)) =? 0)%Z eqn:Hau;
    [left; split; [right; left; now apply length_zero | reflexivity] |].
  destruct (len (_field_text xml "title" ATOM) =? 0)%Z eqn:Hti;
    [left; split; [right; right; now apply len_zero | reflexivity] |].
  right. split.
  - repeat split; intros H.
    + apply len_zero in H. congruence.
    + apply length_zero in H. congruence.
    + apply len_zero in H. congruence.
  - cbn [orb]. destruct (_published xml) as [y m].
    eexists. split; [reflexivity |]. cbn. repeat split.
Qed.

Lemma bare_id_strips_version xml ref base :
  __init__ xml = inr ref -> versioned_id base (id ref) -> bare_id ref = base.
Proof.
  intros Hinit (n & Hid & Hne & Hn).
  destruct (__init___cases xml) as [[_ H] | [_ (r & H & Hr)]]; [congruence |].
  rewrite Hinit in H. injection H as <-.
  destruct Hr as (Hid' & _ & _ & _ & _ & _ & _ & _ & _ & _ & ->).
  rewrite <- Hid', Hid. unfold str_rfind.
  change ("v" ++ n) with (String "v" n).
  rewrite rfind_from_last; [apply slice_to_nat | lia |].
  revert Hn. apply str_all_impl. intros c Hc.
  destruct (Ascii.eqb_spec "v" c) as [<- | ?]; [discriminate Hc | reflexivity].
Qed.

Lemma bare_id_without_v xml ref :
  __init__ xml = inr ref ->
  str_all (fun c => negb (Ascii.eqb "v" c)) (id ref) = true ->
  bare_id ref = str_take (String.length (id ref) - 1) (id ref).
Proof.
  intros Hinit Hv.
  destruct (__init___cases xml) as [[_ H] | [(Hne & _) (r & H & Hr)]]; [congruence |].
  rewrite Hinit in H. injection H as <-.
  destruct Hr as (Hid & _ & _ & _ & _ & _ & _ & _ & _ & _ & ->).
  rewrite <- Hid. unfold str_rfind. rewrite (rfind_from_absent "v" _ _ Hv).
  unfold slice_to, bound, len. cbn [Z.ltb Z.compare].
  f_equal. rewrite <- Hid in Hne.
  destruct (id ref) as [|c s]; [congruence |]. cbn [String.length]. lia.
Qed.

(** C9: [_field_text] returns the stripped text of the named element and
    the empty string when the element is absent or has no text, [_category]
    returns the [term] attribute or the empty string, neither raises, and
    the optional fields of a constructed reference are these strings. *)
Theorem optional_fields_total :
  (forall xml name namespace,
     _field_text xml name namespace = field_or_empty xml (namespace ++ name)) /\
  (forall xml, _category xml = term_or_empty xml) /\
  (forall xml ref, __init__ xml = inr ref ->
     summary ref = field_or_empty xml (ATOM ++ "summary") /\
     category ref = term_or_empty xml /\
     pub_date ref = field_or_empty xml (ATOM ++ "published") /\
     updated ref = field_or_empty xml (ATOM ++ "updated") /\
     note ref = field_or_empty xml (ARXIV ++ "journal_ref") /\
     doi ref = field_or_empty xml (ARXIV ++ "doi")).
Proof.
  split; [exact _field_text_value |]. split; [exact _category_value |].
  intros xml ref Hinit.
  destruct (__init___cases xml) as [[_ H] | [_ (r & H & Hr)]]; [congruence |].
  rewrite Hinit in H. injection H as <-.
  destruct Hr as (_ & _ & _ & _ & -> & -> & -> & -> & -> & -> & _).
  rewrite !_field_text_value, _category_value. repeat split.
Qed.

Lemma optional_fields_total_witness :
  exists ref, __init__ Samples.versioned = inr ref /\
    summary ref = "We learn things." /\ category ref = "cs.LG" /\
    note ref = "" /\ doi ref = "".
Proof.
  destruct (__init__ Samples.versioned) as [e | ref] eqn:Hinit;
    [vm_compute in Hinit; discriminate |].
  exists ref. split; [reflexivity |].
  destruct (proj2 (proj2 optional_fields_total) _ _ Hinit)
    as (-> & -> & _ & _ & -> & ->).
  vm_compute. repeat split.
Defined.

(** C10, as stated, fails: an id URL of four characters or fewer contains
    no [/abs/], and the id extracted from it is empty. *)
Lemma id_of_short_url_is_empty :
  _field_text Samples.short_id "id" ATOM = "abc" /\
  ~ occurs "/abs/" "abc" /\
  _id Samples.short_id = "".
Proof.
  split; [vm_compute; reflexivity |].
  split; [apply str_find_absent; vm_compute; reflexivity | vm_compute; reflexivity].
Qed.

(** C10 (amended): for every arXiv entry whose id URL does not contain
    [/abs/], the extracted id equals the URL with its first four characters
    removed; it is not empty exactly when the URL has more than four
    characters, and it differs from the URL exactly when the URL is not
    empty. *)
Theorem id_without_abs xml :
  let id_url := _field_text xml "id" ATOM in
  ~ occurs "/abs/" id_url ->
  _id xml = str_drop 4 id_url /\
  (_id xml <> "" <-> (4 < String.length id_url)%nat) /\
  (_id xml <> id_url <-> id_url <> "").
Proof.
  intros id_url Hno. rewrite _id_value. fold id_url.
  apply str_find_absent in Hno. cbv zeta. rewrite Hno.
  change (-1 + 5)%Z with (Z.of_nat 4). rewrite slice_from_nat.
  split; [reflexivity |].
  assert (Hlen := length_str_drop 4 id_url).
  split; split.
  - intros Hne. destruct (str_drop 4 id_url) eqn:Hd; [congruence |].
    simpl in Hlen. lia.
  - intros Hgt Hd. rewrite Hd in Hlen. simpl in Hlen. lia.
  - intros Hne ->. now apply Hne.
  - intros Hne Hd. rewrite Hd in Hlen.
    destruct id_url; [congruence | simpl in Hlen; lia].
Qed.

Lemma id_without_abs_witness :
  _id Samples.pdf_link = "s://arxiv.org/pdf/2310.01234v2".
Proof.
  assert (Hno : ~ occurs "/abs/" (_field_text Samples.pdf_link "id" ATOM))
    by (apply str_find_absent; vm_compute; reflexivity).
  rewrite (proj1 (id_without_abs Samples.pdf_link Hno)).
  vm_compute. reflexivity.
Defined.

(** C7 fails on the code: for an id without a version suffix, [rfind]
    returns -1 and the slice drops the last character of the id. *)
Theorem bare_id_of_unversioned_id :
  exists ref, __init__ Samples.unversioned = inr ref /\
    id ref = "2310.01234" /\ bare_id ref = "2310.0123".
Proof. eexists. split; [vm_compute; reflexivity |]. split; reflexivity. Qed.

End ArxivReference.

(** ** OpenReview references *)

Section OpenReviewReference.
Import generate_openreview_md.
Import generate_openreview_md.Reference.

Lemma getitem_dict j k v : getitem j k = inr v -> exists d, j = JDict d.
Proof. destruct j; try discriminate. intros _. now eexists. Qed.

(** When every field the constructor reads is there, it raises "No such
    publication" or returns the record of the extracted fields. *)
Lemma __init___present rt j i t a s p f v :
  getitem j "id" = inr i ->
  content_value j "title" = inr t ->
  content_value j "authors" = inr a ->
  content_value j "abstract" = inr s ->
  content_value j "pdf" = inr p ->
  getitem j "forum" = inr f ->
  content_value j "venueid" = inr v ->
  (truthy i && truthy a && truthy t = false /\
     __init__ rt j = inl no_such_publication)
  \/
  (truthy i && truthy a && truthy t = true /\
     exists ref, __init__ rt j = inr ref /\
       id ref = i /\ authors ref = a /\ title ref = t).
Proof.
  intros Hi Ht Ha Hs Hp Hf Hv. unfold __init__.
  rewrite Hi, Ht, Ha, Hs, Hp, Hf, Hv. cbn [bind].
  destruct (getitem_dict _ _ _ Hi) as (d & ->). cbn [get bind ret].
  destruct (truthy i), (truthy a), (truthy t); cbn;
    try (left; split; reflexivity).
  right. split; [reflexivity |]. eexists. split; [reflexivity |]. now cbn.
Qed.

Lemma getitem_raises j k e : getitem j k = inl e -> e <> no_such_publication.
Proof.
  destruct j as [| | | | | d]; cbn; try (intros [= <-]; discriminate).
  destruct (assoc k d); intros [= <-]; discriminate.
Qed.

Lemma content_value_raises j k e :
  content_value j k = inl e -> e <> no_such_publication.
Proof.
  unfold content_value.
  destruct (getitem j "content") as [e1 | c] eqn:H1; cbn [bind];
    [intros [= <-]; eauto using getitem_raises |].
  destruct (getitem c k) as [e2 | x] eqn:H2; cbn [bind];
    [intros [= <-]; eauto using getitem_raises |].
  apply getitem_raises.
Qed.

Lemma get_raises j k d e : get j k d = inl e -> e <> no_such_publication.
Proof. destruct j; cbn; intros [= <-]; discriminate. Qed.

(** One step of a sequence of statements: the statement raised, or it
    returned and the rest ran. *)
Ltac run_step H :=
  match type of H with
  | bind ?m _ = _ =>
      let e := fresh "e" in
      let x := fresh "x" in
      let Hm := fresh "Hm" in
      destruct m as [e | x] eqn:Hm; cbn [bind] in H;
      [ try discriminate H;
        try (injection H as ->;
             first [ apply getitem_raises in Hm
                   | apply content_value_raises in Hm
                   | apply get_raises in Hm ];
             now exfalso)
      | ]
  end.

(** The constructor raises "No such publication" only from its last check,
    where the id, the authors or the title is empty. *)
Lemma __init___raises rt j :
  __init__ rt j = inl no_such_publication ->
  exists i t a,
    getitem j "id" = inr i /\ content_value j "title" = inr t /\
    content_value j "authors" = inr a /\
    truthy i && truthy a && truthy t = false.
Proof.
  unfold __init__. intros H.
  do 8 run_step H.
  exists x, x0, x1. repeat split.
  destruct (truthy x), (truthy x1), (truthy x0); cbn in H |- *;
    try reflexivity; discriminate.
Qed.

(** It returns only what passed the check. *)
Lemma __init___returns rt j ref :
  __init__ rt j = inr ref ->
  truthy (id ref) = true /\ truthy (authors ref) = true /\
  truthy (title ref) = true.
Proof.
  unfold __init__. intros H.
  do 8 run_step H.
  destruct (truthy x) eqn:H1, (truthy x1) eqn:H2, (truthy x0) eqn:H3;
    cbn in H; try discriminate.
  injection H as <-. cbn. auto.
Qed.

End OpenReviewReference.

(** C4, as stated, fails for OpenReview: the check comes after every field
    has been read, so a note with an empty title and no abstract fails with
    the [KeyError] of the abstract. *)
Lemma empty_title_other_error :
  getitem Samples.untitled_note "id" = inr (JStr "abc-D_9") /\
  generate_openreview_md.Reference.content_value Samples.untitled_note "title"
    = inr (JStr "") /\
  generate_openreview_md.Reference.content_value Samples.untitled_note "authors"
    = inr (JList [JStr "Jane Q. Smith"]) /\
  truthy (JStr "") = false /\
  generate_openreview_md.Reference.__init__ Samples.runtime Samples.untitled_note
    = inl (KeyError "'abstract'") /\
  generate_openreview_md.Reference.__init__ Samples.runtime Samples.untitled_note
    <> inl no_such_publication.
Proof. repeat split. discriminate. Qed.

(** C4 (amended): constructing a Reference fails with "No such publication"
    only if the extracted id, authors or title is empty, and a constructed
    record has all three non-empty.  For an arXiv entry it fails so if and
    only if one of the three is empty; for an OpenReview note it does so if
    and only if one is empty, provided the abstract, pdf, forum and venueid
    the constructor reads before its check are present. *)
Theorem reference_construction :
  (forall xml,
     generate_arxiv_md.Reference.__init__ xml = inl no_such_publication <->
     generate_arxiv_md.Reference._id xml = "" \/
     generate_arxiv_md.Reference._authors xml = [] \/
     generate_arxiv_md.Reference._field_text xml "title" generate_arxiv_md.ATOM = "") /\
  (forall xml ref,
     generate_arxiv_md.Reference.__init__ xml = inr ref ->
     generate_arxiv_md.Reference.id ref <> "" /\
     generate_arxiv_md.Reference.authors ref <> [] /\
     generate_arxiv_md.Reference.title ref <> "") /\
  (forall rt j,
     generate_openreview_md.Reference.__init__ rt j = inl no_such_publication ->
     exists i t a,
       getitem j "id" = inr i /\
       generate_openreview_md.Reference.content_value j "title" = inr t /\
       generate_openreview_md.Reference.content_value j "authors" = inr a /\
       (truthy i = false \/ truthy a = false \/ truthy t = false)) /\
  (forall rt j i t a s p f v,
     getitem j "id" = inr i ->
     generate_openreview_md.Reference.content_value j "title" = inr t ->
     generate_openreview_md.Reference.content_value j "authors" = inr a ->
     generate_openreview_md.Reference.content_value j "abstract" = inr s ->
     generate_openreview_md.Reference.content_value j "pdf" = inr p ->
     getitem j "forum" = inr f ->
     generate_openreview_md.Reference.content_value j "venueid" = inr v ->
     (generate_openreview_md.Reference.__init__ rt j = inl no_such_publication <->
      truthy i = false \/ truthy a = false \/ truthy t = false)) /\
  (forall rt j ref,
     generate_openreview_md.Reference.__init__ rt j = inr ref ->
     truthy (generate_openreview_md.Reference.id ref) = true /\
     truthy (generate_openreview_md.Reference.authors ref) = true /\
     truthy (generate_openreview_md.Reference.title ref) = true).
Proof.
  repeat apply conj.
  - intros xml.
    destruct (__init___cases xml) as [[He H] | [(H1 & H2 & H3) (r & H & _)]];
      rewrite H; split; auto; try discriminate.
    intros [? | [? | ?]]; contradiction.
  - intros xml ref Hinit.
    destruct (__init___cases xml) as [[_ H] | [Hne (r & H & Hid & Hau & Hti & _)]];
      [congruence |].
    rewrite Hinit in H. injection H as <-. now rewrite Hid, Hau, Hti.
  - intros rt j H. apply __init___raises in H as (i & t & a & Hi & Ht & Ha & H).
    exists i, t, a. repeat split; auto.
    destruct (truthy i), (truthy a), (truthy t); auto; discriminate.
  - intros rt j i t a s p f v Hi Ht Ha Hs Hp Hf Hv.
    destruct (__init___present rt j i t a s p f v Hi Ht Ha Hs Hp Hf Hv)
      as [[Hc H] | [Hc (r & H & _)]]; rewrite H; split; auto; try discriminate.
    + intros _. destruct (truthy i), (truthy a), (truthy t); auto; discriminate.
    + intros [E | [E | E]]; rewrite E in Hc;
        rewrite ?andb_false_r in Hc; discriminate.
  - apply __init___returns.
Qed.

Lemma reference_construction_witness :
  exists ref,
    generate_openreview_md.Reference.__init__ Samples.runtime Samples.note = inr ref /\
    truthy (generate_openreview_md.Reference.title ref) = true.
Proof.
  destruct (generate_openreview_md.Reference.__init__ Samples.runtime Samples.note)
    as [e | ref] eqn:Hinit; [vm_compute in Hinit; discriminate |].
  exists ref. split; [reflexivity |].
  destruct reference_construction as (_ & _ & _ & _ & H).
  exact (proj2 (proj2 (H _ _ _ Hinit))).
Defined.

(** ** Citation keys *)

Lemma is_whitespace_lower c : is_whitespace (lower_char c) = is_whitespace c.
Proof. destruct c as [[] [] [] [] [] [] [] []]; reflexivity. Qed.

Lemma lower_append a b : lower (a ++ b) = lower a ++ lower b.
Proof. induction a as [|c a IH]; simpl; [reflexivity | now rewrite IH]. Qed.

Lemma split_go_lower cur s :
  split_go (option_map lower cur) (lower s) = map lower (split_go cur s).
Proof.
  revert cur. induction s as [|c s IH]; intros cur; simpl.
  - now destruct cur.
  - rewrite is_whitespace_lower. destruct (is_whitespace c).
    + destruct cur; simpl; [f_equal |]; apply (IH None).
    + rewrite <- IH. f_equal. destruct cur; simpl; [| reflexivity].
      now rewrite lower_append.
Qed.

Lemma split_lower s : split (lower s) = map lower (split s).
Proof. apply (split_go_lower None). Qed.

Lemma replace_without c s : replace c "" s = without c s.
Proof.
  induction s as [|a s IH]; simpl; [reflexivity |].
  rewrite IH. now destruct (Ascii.eqb a c).
Qed.

Lemma find_from_mentions c s i :
  (0 <= i)%Z -> (0 <=? find_from (String c "") s i)%Z = mentions c s.
Proof.
  revert i. induction s as [|a s IH]; intros i Hi; [reflexivity |].
  cbn [find_from startswith mentions]. rewrite andb_true_r, (Ascii.eqb_sym c a).
  destruct (Ascii.eqb a c); cbn [orb].
  - now apply Z.leb_le.
  - apply IH. lia.
Qed.

Lemma contains_mentions c s : contains (String c "") s = mentions c s.
Proof. apply find_from_mentions. lia. Qed.

(** The first word, as the code takes it from the lowercased title. *)
Lemma first_word_component title :
  match split (lower title) with
  | w :: _ => replace ":" "" w
  | [] => ""
  end = title_component title.
Proof.
  unfold title_component, first_token. rewrite split_lower.
  destruct (split title) as [|w ws]; [reflexivity |].
  apply replace_without.
Qed.

Lemma last_item_token s w :
  last_token s = Some w -> last_item (split s) = inr w.
Proof.
  unfold last_token, last_item. destruct (rev (split s)); [discriminate |].
  now intros [= ->].
Qed.

Lemma has_token_last s : has_token s -> exists w, last_token s = Some w.
Proof.
  unfold has_token, last_token. intros H.
  destruct (rev (split s)) as [|w l] eqn:Hr; [| now exists w].
  apply (f_equal (@rev string)) in Hr. rewrite rev_involutive in Hr. contradiction.
Qed.

Lemma arxiv_last_names names :
  Forall has_token names ->
  for_each (fun name => ws <-- split_of name ;; w <-- last_item ws ;; ret (lower w))
           (map Some names)
  = inr (map last_name names).
Proof.
  induction 1 as [|n names Hn _ IH]; [reflexivity |].
  cbn [map for_each]. rewrite IH. cbn [split_of bind ret].
  destruct (has_token_last n Hn) as (w & Hw).
  unfold last_name. rewrite Hw, (last_item_token n w Hw). reflexivity.
Qed.

Lemma openreview_last_names names :
  Forall has_token names ->
  for_each (fun name => n <-- as_str "split" name ;;
                        w <-- last_item (split n) ;; ret (lower w))
           (map JStr names)
  = inr (map last_name names).
Proof.
  induction 1 as [|n names Hn _ IH]; [reflexivity |].
  cbn [map for_each]. rewrite IH. cbn [as_str bind ret].
  destruct (has_token_last n Hn) as (w & Hw).
  unfold last_name. rewrite Hw, (last_item_token n w Hw). reflexivity.
Qed.

Lemma arxiv_citation_key self first others :
  generate_arxiv_md.Reference.authors self = map Some (first :: others) ->
  Forall has_token (first :: others) ->
  exists key,
    expected_key first (generate_arxiv_md.Reference.year self)
                 (generate_arxiv_md.Reference.title self) = Some key /\
    generate_arxiv_md.Reference.citation_key self = inr key.
Proof.
  intros Hau Htok. unfold generate_arxiv_md.Reference.citation_key.
  rewrite Hau, (arxiv_last_names _ Htok). cbn [bind map first_item ret].
  rewrite first_word_component. unfold expected_key, last_name.
  destruct (has_token_last first (Forall_inv Htok)) as (w & ->).
  eexists. split; reflexivity.
Qed.

Lemma has_token_nonempty s : has_token s -> String.eqb s "" = false.
Proof. destruct s; [intros H; now contradiction H | reflexivity]. Qed.

Lemma openreview_citation_key rt self first others year title :
  generate_openreview_md.Reference.authors self = JList (map JStr (first :: others)) ->
  Forall has_token (first :: others) ->
  (truthy (generate_openreview_md.Reference.pub_date self) = false /\ year = "YYYY" \/
   truthy (generate_openreview_md.Reference.pub_date self) = true /\
   year_of_timestamp rt (generate_openreview_md.Reference.pub_date self) = inr year) ->
  generate_openreview_md.Reference.title self = JStr title ->
  title = "" \/ has_token title ->
  exists key,
    expected_key first year title = Some key /\
    generate_openreview_md.Reference.citation_key rt self = inr key.
Proof.
  intros Hau Htok Hyear Hti Htitle.
  unfold generate_openreview_md.Reference.citation_key.
  rewrite Hau. cbn [iterate bind ret].
  rewrite (openreview_last_names _ Htok). cbn [bind map].
  assert (Hy : (if truthy (generate_openreview_md.Reference.pub_date self)
                then year_of_timestamp rt (generate_openreview_md.Reference.pub_date self)
                else ret "YYYY") = inr year).
  { destruct Hyear as [[-> ->] | [-> ->]]; reflexivity. }
  rewrite Hy, Hti. cbn [bind first_item ret].
  unfold expected_key, last_name.
  destruct (has_token_last first (Forall_inv Htok)) as (w & ->).
  destruct Htitle as [-> | Htitle].
  - eexists. split; reflexivity.
  - cbn [truthy]. rewrite (has_token_nonempty _ Htitle). cbn [negb as_str bind ret].
    rewrite split_lower. unfold title_component, first_token.
    unfold has_token in Htitle. destruct (split title) as [|t ts]; [contradiction |].
    cbn [map first_item bind ret]. rewrite replace_without.
    eexists. split; reflexivity.
Qed.

(** C3, as stated, fails: the last names of all authors are computed before
    the first is used, so a reference whose second author has a blank name
    has no citation key although its first author, year and title give one. *)
Lemma blank_coauthor_has_no_key :
  exists ref,
    generate_arxiv_md.Reference.__init__ Samples.blank_coauthor = inr ref /\
    generate_arxiv_md.Reference.authors ref = [Some "Jane Q. Smith"; Some " "] /\
    expected_key "Jane Q. Smith" (generate_arxiv_md.Reference.year ref)
                 (generate_arxiv_md.Reference.title ref) = Some "smith2023deep" /\
    generate_arxiv_md.Reference.citation_key ref
      = inl (IndexError "list index out of range").
Proof. eexists. split; [vm_compute; reflexivity |]. repeat split. Qed.

(** C3 (amended): for every reference whose author names all contain at
    least one whitespace-separated token, the citation key is the lowercased
    last token of the first author's name, then the year string as given,
    then the lowercased first token of the title with its colons removed;
    the title component is empty for an arXiv title without words and for
    an empty OpenReview title; authors ["Jane Q. Smith"], year "2023" and
    title "Deep: Learning Things" give "smith2023deep". *)
Theorem citation_key_spec :
  (forall self first others,
     generate_arxiv_md.Reference.authors self = map Some (first :: others) ->
     Forall has_token (first :: others) ->
     exists key,
       expected_key first (generate_arxiv_md.Reference.year self)
                    (generate_arxiv_md.Reference.title self) = Some key /\
       generate_arxiv_md.Reference.citation_key self = inr key) /\
  (forall rt self first others year title,
     generate_openreview_md.Reference.authors self = JList (map JStr (first :: others)) ->
     Forall has_token (first :: others) ->
     (truthy (generate_openreview_md.Reference.pub_date self) = false /\ year = "YYYY" \/
      truthy (generate_openreview_md.Reference.pub_date self) = true /\
      year_of_timestamp rt (generate_openreview_md.Reference.pub_date self) = inr year) ->
     generate_openreview_md.Reference.title self = JStr title ->
     title = "" \/ has_token title ->
     exists key,
       expected_key first year title = Some key /\
       generate_openreview_md.Reference.citation_key rt self = inr key) /\
  expected_key "Jane Q. Smith" "2023" "Deep: Learning Things" = Some "smith2023deep" /\
  title_component "   " = "".
Proof.
  split; [exact arxiv_citation_key |].
  split; [exact openreview_citation_key |].
  split; reflexivity.
Qed.

Lemma citation_key_spec_witness :
  exists ref,
    generate_arxiv_md.Reference.__init__ Samples.versioned = inr ref /\
    generate_arxiv_md.Reference.citation_key ref = inr "smith2023deep".
Proof.
  destruct (generate_arxiv_md.Reference.__init__ Samples.versioned)
    as [e | ref] eqn:Hinit; [vm_compute in Hinit; discriminate |].
  exists ref. split; [reflexivity |].
  assert (Hau : generate_arxiv_md.Reference.authors ref = map Some ["Jane Q. Smith"])
    by (vm_compute in Hinit; injection Hinit as <-; reflexivity).
  assert (Htok : Forall has_token ["Jane Q. Smith"])
    by (repeat constructor; discriminate).
  destruct (proj1 citation_key_spec ref _ _ Hau Htok) as (key & Hkey & ->).
  f_equal. vm_compute in Hinit. injection Hinit as <-.
  vm_compute in Hkey. now injection Hkey.
Defined.

(** ** Batches *)

(** C1 fails on the code: [arxiv2bib_dict] pairs the entries of the
    response, which answer the valid ids, with the ids of the whole request.
    With an invalid id before a valid one, the record of the valid id is
    stored under the invalid id, in place of its error, and the valid id
    gets no entry at all; and an error of the one API call ends the batch
    with no entry for any id. *)
Theorem arxiv2bib_dict_misaligned :
  generate_arxiv_md.is_valid "not a valid id!!" = false /\
  generate_arxiv_md.is_valid "2310.01234" = true /\
  (exists results record,
     generate_arxiv_md.arxiv2bib_dict Samples.arxiv_request
       ["not a valid id!!"; "2310.01234"] = inr results /\
     results !! "2310.01234" = None /\
     results !! "not a valid id!!" = Some record /\
     record !! "eprint" = Some "2310.01234v2" /\
     record !! "error" = None) /\
  generate_arxiv_md.arxiv2bib_dict
    (fun _ => raise (HTTPError "HTTP Error 503: Service Unavailable"))
    ["not a valid id!!"; "2310.01234"]
  = inl (HTTPError "HTTP Error 503: Service Unavailable").
Proof.
  split; [vm_compute; reflexivity |]. split; [vm_compute; reflexivity |].
  split; [| vm_compute; reflexivity].
  destruct (generate_arxiv_md.arxiv2bib_dict Samples.arxiv_request
              ["not a valid id!!"; "2310.01234"]) as [e | results] eqn:H;
    [vm_compute in H; discriminate |].
  destruct (results !! "not a valid id!!") as [record |] eqn:Hr;
    [| injection H as <-; vm_compute in Hr; discriminate].
  exists results, record. split; [reflexivity |].
  injection H as <-.
  split; [vm_compute; reflexivity |]. split; [assumption |].
  vm_compute in Hr. injection Hr as <-. split; vm_compute; reflexivity.
Qed.

(** The OpenReview batch, which handles each id inside its own [try],
    does what the arXiv batch misses: the entry of an id depends on that id
    alone. *)
Lemma openreview_step rt req (results : gmap string (gmap string json)) id :
  (if generate_openreview_md.is_valid id then
     try_except
       (notes <-- req id ;;
        if truthy notes then
          note <-- getitem0 notes ;;
          ref <-- generate_openreview_md.Reference.__init__ rt note ;;
          d <-- generate_openreview_md.Reference.to_dict rt ref ;;
          ret (<[id := d]> results)
        else ret (<[id := {["error" := JStr "No notes found"]}]> results))
       (fun error => <[id := {["error" := JStr (str_of_exception error)]}]> results)
   else <[id := {["error" := JStr "Invalid OpenReview identifier"]}]> results)
  = <[id := openreview_record rt req id]> results.
Proof.
  unfold openreview_record.
  destruct (generate_openreview_md.is_valid id); [| reflexivity].
  destruct (req id) as [e | notes]; [reflexivity |]. cbn [bind].
  destruct (truthy notes); [| reflexivity].
  destruct (getitem0 notes) as [e | note]; [reflexivity |]. cbn [bind].
  destruct (generate_openreview_md.Reference.__init__ rt note) as [e | ref];
    [reflexivity |]. cbn [bind].
  now destruct (generate_openreview_md.Reference.to_dict rt ref).
Qed.

Lemma openreview2bib_dict_lookup rt req id_list id :
  generate_openreview_md.openreview2bib_dict rt req id_list !! id =
  if decide (id ∈ id_list) then Some (openreview_record rt req id) else None.
Proof.
  unfold generate_openreview_md.openreview2bib_dict.
  assert (H : forall acc : gmap string (gmap string json),
    fold_left (fun results id => <[id := openreview_record rt req id]> results)
      id_list acc !! id =
    if decide (id ∈ id_list) then Some (openreview_record rt req id) else acc !! id).
  { induction id_list as [|a l IH]; intros acc; [reflexivity |].
    cbn [fold_left]. rewrite IH.
    destruct (decide (id ∈ l)) as [Hl | Hl].
    - rewrite decide_True by (apply elem_of_cons; now right). reflexivity.
    - destruct (decide (a = id)) as [-> | Hne].
      + rewrite decide_True by (apply elem_of_cons; now left). apply lookup_insert_eq.
      + rewrite decide_False
          by (intros [? | ?]%elem_of_cons; [congruence | contradiction]).
        now apply lookup_insert_ne. }
  specialize (H ∅). rewrite lookup_empty in H. rewrite <- H. f_equal.
  clear H. generalize (∅ : gmap string (gmap string json)).
  induction id_list as [|a l IH]; intros acc; [reflexivity |].
  cbn [fold_left]. rewrite openreview_step. apply IH.
Qed.

Lemma bind_inr {A B} (m : result A) (k : A -> result B) b :
  bind m k = inr b -> exists a, m = inr a /\ k a = inr b.
Proof. destruct m as [e | a]; [discriminate | intros H; now exists a]. Qed.

Lemma to_dict_keys rt ref d :
  generate_openreview_md.Reference.to_dict rt ref = inr d -> dom d = openreview_keys.
Proof.
  unfold generate_openreview_md.Reference.to_dict. intros H.
  apply bind_inr in H as (key & _ & H). apply bind_inr in H as (author & _ & H).
  apply bind_inr in H as (pubdate & _ & H). apply bind_inr in H as (v & _ & H).
  apply bind_inr in H as (venue & _ & H). injection H as <-.
  rewrite !dom_insert_L, dom_empty_L. unfold openreview_keys. cbn [list_to_set].
  set_solver.
Qed.

Lemma openreview_record_shape rt req id :
  (exists msg, openreview_record rt req id = {["error" := JStr msg]}) \/
  dom (openreview_record rt req id) = openreview_keys.
Proof.
  unfold openreview_record.
  destruct (generate_openreview_md.is_valid id); [| left; now eexists].
  destruct (req id) as [e | notes]; [left; now eexists |]. cbn [bind].
  destruct (truthy notes); [| left; now eexists].
  destruct (getitem0 notes) as [e | note]; [left; now eexists |]. cbn [bind].
  destruct (generate_openreview_md.Reference.__init__ rt note) as [e | ref];
    [left; now eexists |]. cbn [bind].
  destruct (generate_openreview_md.Reference.to_dict rt ref) as [e | d] eqn:Hd;
    [left; now eexists |].
  right. apply (to_dict_keys rt ref d Hd).
Qed.

(** Every requested id gets an entry, which is a full record or a
    one-field error record and is computed from that id alone. *)
Lemma openreview2bib_dict_isolation rt req id_list id :
  id ∈ id_list ->
  exists record,
    generate_openreview_md.openreview2bib_dict rt req id_list !! id = Some record /\
    record = openreview_record rt req id /\
    ((exists msg, record = {["error" := JStr msg]}) \/ dom record = openreview_keys).
Proof.
  intros Hin. exists (openreview_record rt req id).
  rewrite openreview2bib_dict_lookup, decide_True by assumption.
  repeat split. apply openreview_record_shape.
Qed.

(** ** Notes *)

Lemma wrap_in_quotes field :
  (if contains ":" field
   then String QUOTE (replace QUOTE "" field) ++ String QUOTE "" else field)
  = yaml_safe field.
Proof. unfold yaml_safe. now rewrite contains_mentions, replace_without. Qed.

Lemma arxiv_note rt (metadata : gmap string string)
    title summary pubdate date author url key :
  metadata !! "title" = Some title ->
  metadata !! "summary" = Some summary ->
  metadata !! "pubdate" = Some pubdate ->
  reformat_pubdate rt pubdate = inr date ->
  metadata !! "author" = Some author ->
  metadata !! "url" = Some url ->
  metadata !! "key" = Some key ->
  generate_arxiv_md.generate_markdown_file rt metadata =
  inr (note_text "arXiv" (yaml_safe (collapse title)) author
         (yaml_safe (collapse summary)) date (today rt) url key).
Proof.
  intros Ht Hs Hp Hd Ha Hu Hk.
  unfold generate_arxiv_md.generate_markdown_file, dict_getitem.
  rewrite Ht, Hs, Hp, Ha, Hu, Hk. cbn [bind ret]. rewrite Hd. cbn [bind].
  now rewrite !wrap_in_quotes.
Qed.

Lemma openreview_note rt (metadata : gmap string json)
    title summary pubdate author url key :
  metadata !! "title" = Some (JStr title) ->
  metadata !! "summary" = Some (JStr summary) ->
  metadata !! "author" = Some author ->
  metadata !! "pubdate" = Some pubdate ->
  metadata !! "url" = Some url ->
  metadata !! "key" = Some key ->
  generate_openreview_md.generate_markdown_file rt metadata =
  inr (note_text "OpenReview" (yaml_safe (collapse title)) (format_value rt author)
         (yaml_safe (collapse summary)) (format_value rt pubdate) (today rt)
         (format_value rt url) (format_value rt key)).
Proof.
  intros Ht Hs Ha Hp Hu Hk.
  unfold generate_openreview_md.generate_markdown_file, dict_getitem.
  rewrite Ht, Hs, Ha, Hp, Hu, Hk. cbn [bind ret as_str].
  now rewrite !wrap_in_quotes.
Qed.

(** C5: after the whitespace of the title and of the abstract is collapsed,
    a field with a colon is rendered between double quotes with its own
    double quotes removed, and any other field is rendered unchanged; the
    title Foo: "Bar" is rendered as the line title: "Foo: Bar". *)
Theorem colon_fields_are_quoted :
  (forall rt (metadata : gmap string string) title summary pubdate date author url key,
     metadata !! "title" = Some title ->
     metadata !! "summary" = Some summary ->
     metadata !! "pubdate" = Some pubdate ->
     reformat_pubdate rt pubdate = inr date ->
     metadata !! "author" = Some author ->
     metadata !! "url" = Some url ->
     metadata !! "key" = Some key ->
     generate_arxiv_md.generate_markdown_file rt metadata =
     inr (note_text "arXiv" (yaml_safe (collapse title)) author
            (yaml_safe (collapse summary)) date (today rt) url key)) /\
  (forall rt (metadata : gmap string json) title summary pubdate author url key,
     metadata !! "title" = Some (JStr title) ->
     metadata !! "summary" = Some (JStr summary) ->
     metadata !! "author" = Some author ->
     metadata !! "pubdate" = Some pubdate ->
     metadata !! "url" = Some url ->
     metadata !! "key" = Some key ->
     generate_openreview_md.generate_markdown_file rt metadata =
     inr (note_text "OpenReview" (yaml_safe (collapse title)) (format_value rt author)
            (yaml_safe (collapse summary)) (format_value rt pubdate) (today rt)
            (format_value rt url) (format_value rt key))) /\
  (forall field, mentions ":" field = true ->
     yaml_safe field = String QUOTE (without QUOTE field) ++ String QUOTE "") /\
  (forall field, mentions ":" field = false -> yaml_safe field = field) /\
  yaml_safe (collapse Samples.quoted_title) = String QUOTE ("Foo: Bar" ++ String QUOTE "") /\
  (exists content,
     generate_arxiv_md.generate_markdown_file Samples.runtime Samples.quoted_metadata
       = inr content /\
     nth_error (split_on LF content) 1
       = Some ("title: " ++ String QUOTE ("Foo: Bar" ++ String QUOTE ""))).
Proof.
  split; [exact arxiv_note |]. split; [exact openreview_note |].
  split; [intros field H; unfold yaml_safe; now rewrite H |].
  split; [intros field H; unfold yaml_safe; now rewrite H |].
  split; [vm_compute; reflexivity |].
  eexists. split; vm_compute; reflexivity.
Qed.

Lemma colon_fields_are_quoted_witness :
  generate_arxiv_md.generate_markdown_file Samples.runtime Samples.plain_metadata =
  inr (note_text "arXiv" "Deep Learning Things" "Jane Q. Smith" "We learn things."
         "2023-10-02" "2024-01-15 (Mon)" "http://arxiv.org/abs/2310.01234v2"
         "smith2023foo").
Proof.
  exact (proj1 colon_fields_are_quoted Samples.runtime Samples.plain_metadata
           "Deep   Learning Things" "We  learn things." "2023-10-02T17:59:59Z"
           "2023-10-02" "Jane Q. Smith" "http://arxiv.org/abs/2310.01234v2"
           "smith2023foo" eq_refl eq_refl eq_refl eq_refl eq_refl eq_refl eq_refl).
Defined.

(** *** Lines of a note *)

Lemma split_on_line a rest :
  no_line_feed a = true -> split_on LF (a ++ nl ++ rest) = a :: split_on LF rest.
Proof.
  induction a as [|c a IH]; intros Ha.
  - reflexivity.
  - cbn in Ha. apply andb_true_iff in Ha as [Hc Ha].
    cbn [append split_on]. apply negb_true_iff in Hc. rewrite Hc.
    now rewrite (IH Ha).
Qed.

Lemma split_go_words cur s :
  (forall w, cur = Some w -> no_space w = true) ->
  Forall (fun w => no_space w = true) (split_go cur s).
Proof.
  revert cur. induction s as [|c s IH]; intros cur Hcur; simpl.
  - destruct cur; constructor; auto.
  - destruct (is_whitespace c) eqn:Hc.
    + destruct cur; [constructor; auto |]; apply IH; discriminate.
    + apply IH. intros w [= <-]. unfold no_space.
      destruct cur as [w0 |].
      * rewrite str_all_append. cbn. rewrite Hc. cbn.
        rewrite andb_true_r. now apply Hcur.
      * cbn. now rewrite Hc.
Qed.

Lemma no_space_no_line_feed w : no_space w = true -> no_line_feed w = true.
Proof.
  apply str_all_impl. intros c Hc.
  destruct (Ascii.eqb_spec c LF) as [-> | ?]; [discriminate Hc | reflexivity].
Qed.

Lemma no_line_feed_join ws :
  Forall (fun w => no_line_feed w = true) ws -> no_line_feed (join " " ws) = true.
Proof.
  induction 1 as [|w ws Hw Hws IH]; [reflexivity |].
  destruct ws as [|w' ws']; [exact Hw |].
  change (join " " (w :: w' :: ws')) with (w ++ " " ++ join " " (w' :: ws')).
  now rewrite !no_line_feed_append, Hw, IH.
Qed.

Lemma no_line_feed_collapse s : no_line_feed (collapse s) = true.
Proof.
  apply no_line_feed_join.
  eapply Forall_impl; [apply (split_go_words None s); discriminate |].
  apply no_space_no_line_feed.
Qed.

Lemma no_line_feed_without c s :
  no_line_feed s = true -> no_line_feed (without c s) = true.
Proof.
  unfold no_line_feed. induction s as [|a s IH]; [reflexivity |].
  cbn [str_all without]. rewrite andb_true_iff. intros [Ha Hs].
  destruct (Ascii.eqb a c); [auto |]. cbn [str_all]. now rewrite Ha, IH.
Qed.

Lemma no_line_feed_yaml_safe s :
  no_line_feed s = true -> no_line_feed (yaml_safe s) = true.
Proof.
  intros Hs. unfold yaml_safe. destruct (mentions ":" s); [| exact Hs].
  change (String QUOTE (without QUOTE s) ++ String QUOTE "")
    with (String QUOTE "" ++ without QUOTE s ++ String QUOTE "").
  now rewrite !no_line_feed_append, no_line_feed_without.
Qed.

Lemma front_matter_note_text venue title authors tldr published added url key :
  no_line_feed venue = true -> no_line_feed title = true ->
  no_line_feed authors = true -> no_line_feed tldr = true ->
  no_line_feed published = true -> no_line_feed added = true ->
  no_line_feed url = true ->
  front_matter (note_text venue title authors tldr published added url key) =
  [ "title: " ++ title; "authors: " ++ authors; "tldr: " ++ tldr;
    "venue: " ++ venue; "date_published: " ++ published; "rating: 0/5";
    "date_added: " ++ added; "url: " ++ url; "links: "; "tags:" ].
Proof.
  intros Hv Ht Ha Hs Hp Hd Hu.
  unfold front_matter, note_text. cbn [join].
  do 12 (rewrite split_on_line
           by (rewrite ?no_line_feed_append, ?Hv, ?Ht, ?Ha, ?Hs, ?Hp, ?Hd, ?Hu;
               reflexivity)).
  reflexivity.
Qed.

Lemma front_matter_fields venue title authors tldr published added url key :
  no_line_feed venue = true -> no_line_feed title = true ->
  no_line_feed authors = true -> no_line_feed tldr = true ->
  no_line_feed published = true -> no_line_feed added = true ->
  no_line_feed url = true ->
  let content := note_text venue title authors tldr published added url key in
  front_matter_field "title" content = Some title /\
  front_matter_field "url" content = Some url.
Proof.
  intros Hv Ht Ha Hs Hp Hd Hu content. unfold front_matter_field, content.
  rewrite front_matter_note_text by assumption.
  split; reflexivity.
Qed.

(** C6, as stated, fails: a title with a colon is rendered between quotes
    and without its own quotes, so the [title:] line of the note of
    Foo: "Bar" reads "Foo: Bar" and not the normalised title. *)
Lemma quoted_title_does_not_round_trip :
  exists content,
    generate_arxiv_md.generate_markdown_file Samples.runtime Samples.quoted_metadata
      = inr content /\
    collapse Samples.quoted_title = Samples.quoted_title /\
    front_matter_field "title" content
      = Some (String QUOTE ("Foo: Bar" ++ String QUOTE "")) /\
    front_matter_field "title" content <> Some (collapse Samples.quoted_title).
Proof.
  eexists. split; [vm_compute; reflexivity |].
  split; [vm_compute; reflexivity |].
  split; [vm_compute; reflexivity |].
  vm_compute. discriminate.
Qed.

(** C6 (amended): for every metadata record whose whitespace-normalised
    title has no colon and whose author, publication date, date added and
    url have no line break, re-parsing the rendered front matter for its
    [title:] and [url:] lines yields the whitespace-normalised title and
    the exact url of the record. *)
Theorem front_matter_round_trip :
  (forall rt (metadata : gmap string string) title summary pubdate date author url key,
     metadata !! "title" = Some title ->
     metadata !! "summary" = Some summary ->
     metadata !! "pubdate" = Some pubdate ->
     reformat_pubdate rt pubdate = inr date ->
     metadata !! "author" = Some author ->
     metadata !! "url" = Some url ->
     metadata !! "key" = Some key ->
     mentions ":" (collapse title) = false ->
     no_line_feed author = true ->
     no_line_feed date = true ->
     no_line_feed (today rt) = true ->
     no_line_feed url = true ->
     exists content,
       generate_arxiv_md.generate_markdown_file rt metadata = inr content /\
       front_matter_field "title" content = Some (collapse title) /\
       front_matter_field "url" content = Some url) /\
  (forall rt (metadata : gmap string json) title summary pubdate author url key,
     metadata !! "title" = Some (JStr title) ->
     metadata !! "summary" = Some (JStr summary) ->
     metadata !! "author" = Some author ->
     metadata !! "pubdate" = Some pubdate ->
     metadata !! "url" = Some (JStr url) ->
     metadata !! "key" = Some key ->
     mentions ":" (collapse title) = false ->
     no_line_feed (format_value rt author) = true ->
     no_line_feed (format_value rt pubdate) = true ->
     no_line_feed (today rt) = true ->
     no_line_feed url = true ->
     exists content,
       generate_openreview_md.generate_markdown_file rt metadata = inr content /\
       front_matter_field "title" content = Some (collapse title) /\
       front_matter_field "url" content = Some url).
Proof.
  split.
  - intros rt metadata title summary pubdate date author url key
      Ht Hs Hp Hd Ha Hu Hk Hcolon Hna Hnd Hnt Hnu.
    eexists.
    split; [apply (arxiv_note rt metadata title summary pubdate date author url key);
            assumption |].
    assert (Hy : yaml_safe (collapse title) = collapse title)
      by (unfold yaml_safe; now rewrite Hcolon).
    rewrite Hy. apply front_matter_fields; auto using no_line_feed_collapse.
    apply no_line_feed_yaml_safe, no_line_feed_collapse.
  - intros rt metadata title summary pubdate author url key
      Ht Hs Ha Hp Hu Hk Hcolon Hna Hnd Hnt Hnu.
    eexists.
    split; [apply (openreview_note rt metadata title summary pubdate author (JStr url) key);
            assumption |].
    assert (Hy : yaml_safe (collapse title) = collapse title)
      by (unfold yaml_safe; now rewrite Hcolon).
    rewrite Hy. cbn [format_value].
    apply front_matter_fields; auto using no_line_feed_collapse.
    apply no_line_feed_yaml_safe, no_line_feed_collapse.
Qed.

Lemma front_matter_round_trip_witness :
  exists content,
    generate_arxiv_md.generate_markdown_file Samples.runtime Samples.plain_metadata
      = inr content /\
    front_matter_field "title" content = Some "Deep Learning Things" /\
    front_matter_field "url" content = Some "http://arxiv.org/abs/2310.01234v2".
Proof.
  exact (proj1 front_matter_round_trip Samples.runtime Samples.plain_metadata
           "Deep   Learning Things" "We  learn things." "2023-10-02T17:59:59Z"
           "2023-10-02" "Jane Q. Smith" "http://arxiv.org/abs/2310.01234v2"
           "smith2023foo" eq_refl eq_refl eq_refl eq_refl eq_refl eq_refl eq_refl
           eq_refl eq_refl eq_refl eq_refl eq_refl).
Defined.

(* ================================================================== *)
(** * Further properties of the code *)
(* ================================================================== *)

(** ** The arXiv batch *)

Lemma arxiv_to_dict_keys ref d :
  generate_arxiv_md.Reference.to_dict ref = inr d -> dom d = arxiv_keys.
Proof.
  unfold generate_arxiv_md.Reference.to_dict. intros H.
  apply bind_inr in H as (key & _ & H). apply bind_inr in H as (author & _ & H).
  injection H as <-.
  rewrite !dom_insert_L, dom_empty_L. unfold arxiv_keys. cbn [list_to_set].
  set_solver.
Qed.

Lemma arxiv_record_shape entry :
  error_record (arxiv_record entry) \/ dom (arxiv_record entry) = arxiv_keys.
Proof.
  unfold arxiv_record.
  destruct (generate_arxiv_md.Reference.__init__ entry) as [e | ref];
    [left; now eexists |]. cbn [bind].
  destruct (generate_arxiv_md.Reference.to_dict ref) as [e | d] eqn:Hd;
    [left; now eexists |].
  right. apply (arxiv_to_dict_keys ref d Hd).
Qed.

Lemma arxiv_store_step (results : gmap string (gmap string string)) id entry :
  try_except
    (ref <-- generate_arxiv_md.Reference.__init__ entry ;;
     d <-- generate_arxiv_md.Reference.to_dict ref ;;
     ret (<[id := d]> results))
    (fun error => <[id := {["error" := str_of_exception error]}]> results)
  = <[id := arxiv_record entry]> results.
Proof.
  unfold arxiv_record.
  destruct (generate_arxiv_md.Reference.__init__ entry) as [e | ref];
    [reflexivity |]. cbn [bind].
  now destruct (generate_arxiv_md.Reference.to_dict ref).
Qed.

(** The two loops of [arxiv2bib_dict]. *)
Lemma arxiv_validate id_list ids (results : gmap string (gmap string string)) :
  fold_left
    (fun '(ids, results) id =>
       if generate_arxiv_md.is_valid id then ((ids ++ [id])%list, results)
       else (ids, <[id := {["error" := "Invalid arXiv identifier"]}]> results))
    id_list (ids, results)
  = ((ids ++ List.filter generate_arxiv_md.is_valid id_list)%list,
     fold_left (fun results id => <[id := invalid_arxiv_record]> results)
       (List.filter (fun id => negb (generate_arxiv_md.is_valid id)) id_list) results).
Proof.
  revert ids results. induction id_list as [|id l IH]; intros ids results.
  - cbn. now rewrite app_nil_r.
  - cbn [fold_left List.filter].
    destruct (generate_arxiv_md.is_valid id); cbn [negb]; rewrite IH.
    + now rewrite <- app_assoc.
    + reflexivity.
Qed.

Lemma arxiv_store pairs (results : gmap string (gmap string string)) :
  fold_left
    (fun results '(id, entry) =>
       try_except
         (ref <-- generate_arxiv_md.Reference.__init__ entry ;;
          d <-- generate_arxiv_md.Reference.to_dict ref ;;
          ret (<[id := d]> results))
         (fun error => <[id := {["error" := str_of_exception error]}]> results))
    pairs results
  = fold_left (fun results p => <[fst p := arxiv_record (snd p)]> results) pairs results.
Proof.
  revert results. induction pairs as [|[id entry] l IH]; intros results;
    [reflexivity |].
  cbn [fold_left fst snd]. rewrite arxiv_store_step. apply IH.
Qed.

Lemma arxiv2bib_dict_unfold api id_list :
  generate_arxiv_md.arxiv2bib_dict api id_list =
  let ids := List.filter generate_arxiv_md.is_valid id_list in
  let results :=
    fold_left (fun results id => <[id := invalid_arxiv_record]> results)
      (List.filter (fun id => negb (generate_arxiv_md.is_valid id)) id_list) ∅ in
  match ids with
  | [] => inr results
  | _ :: _ =>
      xml <-- api ids ;;
      ret (fold_left (fun results p => <[fst p := arxiv_record (snd p)]> results)
             (combine id_list
                (ElementTree.findall [generate_arxiv_md.ATOM ++ "entry"] xml))
             results)
  end.
Proof.
  unfold generate_arxiv_md.arxiv2bib_dict. rewrite arxiv_validate. cbn [app].
  cbv zeta.
  destruct (List.filter generate_arxiv_md.is_valid id_list) as [|id ids] eqn:Hids;
    [reflexivity |].
  cbn [length]. replace (Z.of_nat (S (length ids)) =? 0)%Z with false
    by (symmetry; apply Z.eqb_neq; lia).
  destruct (api (id :: ids)) as [e | xml]; [reflexivity |]. cbn [bind ret].
  now rewrite arxiv_store.
Qed.

(** Storing under the keys of a list: what a lookup finds afterwards. *)
Lemma fold_insert_const {V} (v : V) l (acc : gmap string V) k :
  fold_left (fun results id => <[id := v]> results) l acc !! k =
  if decide (k ∈ l) then Some v else acc !! k.
Proof.
  revert acc. induction l as [|a l IH]; intros acc; [reflexivity |].
  cbn [fold_left]. rewrite IH.
  destruct (decide (k ∈ l)) as [Hl | Hl].
  - rewrite decide_True by (apply elem_of_cons; now right). reflexivity.
  - destruct (decide (a = k)) as [-> | Hne].
    + rewrite decide_True by (apply elem_of_cons; now left). apply lookup_insert_eq.
    + rewrite decide_False
        by (intros [? | ?]%elem_of_cons; [congruence | contradiction]).
      now apply lookup_insert_ne.
Qed.

Lemma fold_insert_pairs_absent {A V} (f : A -> V) (pairs : list (string * A))
    (acc : gmap string V) k :
  (forall a, (k, a) ∉ pairs) ->
  fold_left (fun results p => <[fst p := f (snd p)]> results) pairs acc !! k = acc !! k.
Proof.
  revert acc. induction pairs as [|[id a] l IH]; intros acc Hk; [reflexivity |].
  cbn [fold_left fst snd]. rewrite IH.
  - apply lookup_insert_ne. intros ->. apply (Hk a). apply elem_of_cons. now left.
  - intros a' Ha'. apply (Hk a'). apply elem_of_cons. now right.
Qed.

Lemma fold_insert_pairs_present {A V} (f : A -> V) (pairs : list (string * A))
    (acc : gmap string V) k a :
  NoDup (map fst pairs) -> (k, a) ∈ pairs ->
  fold_left (fun results p => <[fst p := f (snd p)]> results) pairs acc !! k
  = Some (f a).
Proof.
  revert acc. induction pairs as [|[id b] l IH]; intros acc Hnd Hin.
  - now apply elem_of_nil in Hin.
  - cbn [map fst] in Hnd. apply NoDup_cons in Hnd as [Hid Hnd].
    cbn [fold_left fst snd].
    apply elem_of_cons in Hin as [[= -> ->] | Hin].
    + rewrite fold_insert_pairs_absent; [apply lookup_insert_eq |].
      intros a' Ha'. apply Hid. apply list_elem_of_fmap. now exists (id, a').
    + now apply IH.
Qed.

Lemma elem_of_combine_fst {A B} (l : list A) (l' : list B) a b :
  (a, b) ∈ combine l l' -> a ∈ l.
Proof.
  revert l'. induction l as [|x l IH]; intros [|y l'] H; cbn in H;
    try (now apply elem_of_nil in H).
  apply elem_of_cons in H as [[= -> ->] | H]; apply elem_of_cons; eauto.
Qed.

Lemma NoDup_combine_fst {A B} (l : list A) (l' : list B) :
  NoDup l -> NoDup (map fst (combine l l')).
Proof.
  revert l'. induction l as [|x l IH]; intros [|y l'] Hnd; cbn;
    try apply NoDup_nil_2.
  apply NoDup_cons in Hnd as [Hx Hnd]. apply NoDup_cons. split; [| now apply IH].
  intros ((a & b) & Heq & Hin)%list_elem_of_fmap. cbn in Heq. subst a.
  apply Hx. eapply elem_of_combine_fst. exact Hin.
Qed.

Lemma filter_all_false {A} (f : A -> bool) l :
  Forall (fun a => f a = false) l -> List.filter f l = [].
Proof.
  induction 1 as [|a l Ha _ IH]; [reflexivity |]. cbn. now rewrite Ha.
Qed.

Lemma filter_all_true {A} (f : A -> bool) l :
  Forall (fun a => f a = true) l -> List.filter f l = l.
Proof.
  induction 1 as [|a l Ha _ IH]; [reflexivity |]. cbn. now rewrite Ha, IH.
Qed.

Lemma fold_insert_pairs_origin {A V} (f : A -> V) (pairs : list (string * A))
    (acc : gmap string V) k d :
  fold_left (fun results p => <[fst p := f (snd p)]> results) pairs acc !! k = Some d ->
  (exists a, (k, a) ∈ pairs /\ d = f a) \/ acc !! k = Some d.
Proof.
  revert acc. induction pairs as [|[id a] l IH]; intros acc H; [now right |].
  cbn [fold_left fst snd] in H. apply IH in H as [(b & Hb & ->) | H].
  - left. exists b. split; [apply elem_of_cons; now right | reflexivity].
  - destruct (decide (id = k)) as [-> | Hne].
    + rewrite lookup_insert_eq in H. injection H as <-.
      left. exists a. split; [apply elem_of_cons; now left | reflexivity].
    + rewrite lookup_insert_ne in H by assumption. now right.
Qed.

(** X1: when no id of the batch is valid, [arxiv2bib_dict] returns without
    calling the API, whatever the API would do, and maps every requested id
    to the error record of an invalid identifier. *)
Theorem arxiv2bib_dict_all_invalid api id_list :
  Forall (fun id => generate_arxiv_md.is_valid id = false) id_list ->
  exists results,
    generate_arxiv_md.arxiv2bib_dict api id_list = inr results /\
    forall id, results !! id =
               if decide (id ∈ id_list) then Some invalid_arxiv_record else None.
Proof.
  intros Hinv. rewrite arxiv2bib_dict_unfold. cbv zeta.
  rewrite (filter_all_false _ _ Hinv).
  rewrite filter_all_true
    by (eapply Forall_impl; [exact Hinv | intros id ->; reflexivity]).
  eexists. split; [reflexivity |].
  intros id. rewrite fold_insert_const. now destruct (decide (id ∈ id_list)).
Qed.

Lemma arxiv2bib_dict_all_invalid_witness :
  exists results,
    generate_arxiv_md.arxiv2bib_dict
      (fun _ => raise (HTTPError "HTTP Error 503: Service Unavailable"))
      ["not a valid id!!"; "abc123"] = inr results /\
    results !! "abc123" = Some invalid_arxiv_record.
Proof.
  destruct (arxiv2bib_dict_all_invalid
              (fun _ => raise (HTTPError "HTTP Error 503: Service Unavailable"))
              ["not a valid id!!"; "abc123"]) as (results & Hres & Hlook).
  - repeat constructor.
  - exists results. split; [exact Hres |]. rewrite Hlook.
    apply decide_True. set_solver.
Defined.

(** X2: when every id of the batch is valid and no id is repeated, the
    entries of the response are stored by position: the i-th id gets the
    record of the i-th entry, a full record or the error of that entry
    alone, and an id beyond the last entry of the response gets nothing. *)
Theorem arxiv2bib_dict_all_valid api id_list xml :
  Forall (fun id => generate_arxiv_md.is_valid id = true) id_list ->
  NoDup id_list ->
  api id_list = inr xml ->
  let entries := ElementTree.findall [generate_arxiv_md.ATOM ++ "entry"] xml in
  exists results,
    generate_arxiv_md.arxiv2bib_dict api id_list = inr results /\
    (forall id entry,
       (id, entry) ∈ combine id_list entries ->
       results !! id = Some (arxiv_record entry)) /\
    (forall id,
       (forall entry, (id, entry) ∉ combine id_list entries) ->
       results !! id = None).
Proof.
  intros Hval Hnd Hapi entries. rewrite arxiv2bib_dict_unfold. cbv zeta.
  rewrite (filter_all_true _ _ Hval).
  rewrite filter_all_false
    by (eapply Forall_impl; [exact Hval | intros id ->; reflexivity]).
  cbn [fold_left].
  destruct id_list as [|id0 l] eqn:Hl.
  - eexists. split; [reflexivity |]. split.
    + intros id entry Hin. cbn in Hin. now apply elem_of_nil in Hin.
    + intros id _. apply lookup_empty.
  - rewrite Hapi. cbn [bind ret]. fold entries.
    eexists. split; [reflexivity |]. split.
    + intros id entry Hin. apply fold_insert_pairs_present; [| exact Hin].
      now apply NoDup_combine_fst.
    + intros id Hid. rewrite fold_insert_pairs_absent by exact Hid.
      apply lookup_empty.
Qed.

Lemma arxiv2bib_dict_all_valid_witness :
  exists results,
    generate_arxiv_md.arxiv2bib_dict Samples.arxiv_request
      ["2310.01234"; "2310.05678"] = inr results /\
    results !! "2310.05678"
      = Some (arxiv_record
                (Samples.entry "http://arxiv.org/abs/2310.05678v2"
                   ["Jane Q. Smith"] "Deep: Learning Things")).
Proof.
  destruct (arxiv2bib_dict_all_valid Samples.arxiv_request
              ["2310.01234"; "2310.05678"]
              (Samples.feed
                 (map (fun id => Samples.entry ("http://arxiv.org/abs/" ++ id ++ "v2")
                                   ["Jane Q. Smith"] "Deep: Learning Things")
                      ["2310.01234"; "2310.05678"])))
    as (results & Hres & Hpos & _).
  - repeat constructor.
  - apply (bool_decide_unpack _). vm_compute. exact I.
  - reflexivity.
  - exists results. split; [exact Hres |]. apply Hpos.
    vm_compute. apply elem_of_cons. right. apply elem_of_cons. now left.
Defined.

(** X3: every entry of the dictionary that [arxiv2bib_dict] returns is
    keyed by one of the requested ids and is either a one-field error
    record or a record with exactly the thirteen keys of [to_dict]. *)
Theorem arxiv2bib_dict_entries api id_list results id d :
  generate_arxiv_md.arxiv2bib_dict api id_list = inr results ->
  results !! id = Some d ->
  id ∈ id_list /\ (error_record d \/ dom d = arxiv_keys).
Proof.
  rewrite arxiv2bib_dict_unfold. cbv zeta. intros Hres Hd.
  assert (Hinv : forall k v,
    fold_left (fun results id => <[id := invalid_arxiv_record]> results)
      (List.filter (fun id => negb (generate_arxiv_md.is_valid id)) id_list)
      (∅ : gmap string (gmap string string)) !! k = Some v ->
    k ∈ id_list /\ error_record v).
  { intros k v. rewrite fold_insert_const.
    destruct (decide (k ∈ _)) as [Hk | _]; [| now rewrite lookup_empty].
    intros [= <-]. split; [| now eexists].
    apply list_elem_of_In in Hk. apply filter_In in Hk as [Hk _].
    now apply list_elem_of_In. }
  destruct (List.filter generate_arxiv_md.is_valid id_list) as [|v0 vs].
  - injection Hres as <-. destruct (Hinv _ _ Hd). auto.
  - apply bind_inr in Hres as (xml & _ & Hres). injection Hres as <-.
    apply fold_insert_pairs_origin in Hd as [(entry & Hin & ->) | Hd].
    + split; [eapply elem_of_combine_fst; exact Hin | apply arxiv_record_shape].
    + destruct (Hinv _ _ Hd). auto.
Qed.

Lemma arxiv2bib_dict_entries_witness :
  exists results d,
    generate_arxiv_md.arxiv2bib_dict Samples.arxiv_request
      ["not a valid id!!"; "2310.01234"] = inr results /\
    results !! "not a valid id!!" = Some d /\
    (error_record d \/ dom d = arxiv_keys).
Proof.
  destruct (generate_arxiv_md.arxiv2bib_dict Samples.arxiv_request
              ["not a valid id!!"; "2310.01234"]) as [e | results] eqn:Hres;
    [vm_compute in Hres; discriminate |].
  destruct (results !! "not a valid id!!") as [d |] eqn:Hd;
    [| injection Hres as <-; vm_compute in Hd; discriminate].
  exists results, d. split; [reflexivity |]. split; [exact Hd |].
  exact (proj2 (arxiv2bib_dict_entries _ _ _ _ _ Hres Hd)).
Defined.

(** ** The OpenReview batch *)

Lemma openreview2bib_dict_isolation_witness :
  exists record,
    generate_openreview_md.openreview2bib_dict Samples.runtime
      (fun _ => ret (JList [Samples.note]))
      ["abc-D_9"; "not a valid id!!"] !! "abc-D_9" = Some record /\
    dom record = openreview_keys.
Proof.
  destruct (openreview2bib_dict_isolation Samples.runtime
              (fun _ => ret (JList [Samples.note]))
              ["abc-D_9"; "not a valid id!!"] "abc-D_9")
    as (record & Hlook & -> & _); [apply elem_of_cons; now left |].
  eexists. split; [exact Hlook |].
  unfold openreview_keys. vm_compute. reflexivity.
Defined.

(** ** Records of arXiv references *)

Section ArxivRecords.
Import generate_arxiv_md.
Import generate_arxiv_md.Reference.

Lemma for_each_names {B} (f : option string -> result B) l bs :
  f None = inl (AttributeError "'NoneType' object has no attribute 'split'") ->
  for_each f l = inr bs -> exists names, l = map Some names.
Proof.
  intros Hf. revert bs. induction l as [|a l IH]; intros bs H; [now exists [] |].
  cbn [for_each] in H. apply bind_inr in H as (b & Hb & H).
  apply bind_inr in H as (bs' & Hbs & _).
  destruct (IH _ Hbs) as (names & ->).
  destruct a as [n |]; [now exists (n :: names) | congruence].
Qed.

Lemma join_items_names i names : join_items i (map Some names) = inr names.
Proof.
  revert i. induction names as [|n names IH]; intros i; [reflexivity |].
  cbn [map join_items]. now rewrite IH.
Qed.

(** A record exists exactly when a citation key does, and is then the
    dictionary of the fields. *)
Lemma to_dict_cases self :
  match citation_key self with
  | inl e => to_dict self = inl e
  | inr key =>
      exists names,
        authors self = map Some names /\
        to_dict self =
        inr (list_to_map
               [ ("key", key); ("author", join " and " names);
                 ("title", title self); ("eprint", id self);
                 ("archivePrefix", "arXiv"); ("primaryClass", category self);
                 ("year", year self); ("month", month self);
                 ("pubdate", pub_date self); ("doi", doi self);
                 ("url", url self); ("note", note self);
                 ("summary", summary self) ])
  end.
Proof.
  unfold to_dict. destruct (citation_key self) as [e | key] eqn:Hkey; [reflexivity |].
  unfold citation_key in Hkey. apply bind_inr in Hkey as (lasts & Hlasts & _).
  apply for_each_names in Hlasts as (names & Hnames); [| reflexivity].
  exists names. split; [exact Hnames |].
  cbn [bind]. unfold join_of. rewrite Hnames, join_items_names. reflexivity.
Qed.

(** X5: [to_dict] raises exactly when [citation_key] raises, and with the
    same exception; otherwise every author name is a string and the record
    has the thirteen keys, its key the citation key, its author the names
    joined by " and ", its eprint the id with its version, its pubdate the
    published timestamp as it came. *)
Theorem to_dict_follows_citation_key self :
  match citation_key self with
  | inl e => to_dict self = inl e
  | inr key =>
      exists names d,
        authors self = map Some names /\
        to_dict self = inr d /\
        dom d = arxiv_keys /\
        d !! "key" = Some key /\
        d !! "author" = Some (join " and " names) /\
        d !! "title" = Some (title self) /\
        d !! "eprint" = Some (id self) /\
        d !! "archivePrefix" = Some "arXiv" /\
        d !! "pubdate" = Some (pub_date self) /\
        d !! "url" = Some (url self) /\
        d !! "summary" = Some (summary self)
  end.
Proof.
  pose proof (to_dict_cases self) as H.
  destruct (citation_key self) as [e | key]; [exact H |].
  destruct H as (names & Hnames & Hd).
  exists names. eexists. split; [exact Hnames |]. split; [exact Hd |].
  split; [apply (arxiv_to_dict_keys self _ Hd) |].
  repeat split.
Qed.

(** X7: rendering a record that [to_dict] returned never fails for a
    missing key: it raises what parsing the published timestamp raises,
    and otherwise returns the note of the reference. *)
Theorem arxiv_note_of_record rt self d :
  to_dict self = inr d ->
  exists key names,
    citation_key self = inr key /\
    authors self = map Some names /\
    generate_markdown_file rt d =
    (date <-- reformat_pubdate rt (pub_date self) ;;
     ret (note_text "arXiv" (yaml_safe (collapse (title self)))
            (join " and " names) (yaml_safe (collapse (summary self)))
            date (today rt) (url self) key)).
Proof.
  intros Hd. pose proof (to_dict_cases self) as H.
  destruct (citation_key self) as [e | key]; [congruence |].
  destruct H as (names & Hnames & Hd'). rewrite Hd in Hd'. injection Hd' as Heq.
  exists key, names. split; [reflexivity |]. split; [exact Hnames |].
  unfold generate_markdown_file.
  assert (Ht : dict_getitem d "title" = inr (title self)) by (now rewrite Heq).
  assert (Hs : dict_getitem d "summary" = inr (summary self)) by (now rewrite Heq).
  assert (Hp : dict_getitem d "pubdate" = inr (pub_date self)) by (now rewrite Heq).
  assert (Ha : dict_getitem d "author" = inr (join " and " names)) by (now rewrite Heq).
  assert (Hu : dict_getitem d "url" = inr (url self)) by (now rewrite Heq).
  assert (Hk : dict_getitem d "key" = inr key) by (now rewrite Heq).
  rewrite Ht, Hs, Hp. cbn [bind].
  destruct (reformat_pubdate rt (pub_date self)) as [e | date]; [reflexivity |].
  cbn [bind]. rewrite Ha, Hu, Hk. cbn [bind ret].
  now rewrite !wrap_in_quotes.
Qed.

Lemma arxiv_note_of_record_witness :
  exists ref d,
    __init__ Samples.versioned = inr ref /\ to_dict ref = inr d /\
    exists key names,
      citation_key ref = inr key /\
      authors ref = map Some names /\
      generate_markdown_file Samples.runtime d =
      (date <-- reformat_pubdate Samples.runtime (pub_date ref) ;;
       ret (note_text "arXiv" (yaml_safe (collapse (title ref)))
              (join " and " names) (yaml_safe (collapse (summary ref)))
              date (today Samples.runtime) (url ref) key)).
Proof.
  destruct (__init__ Samples.versioned) as [e | ref] eqn:Hinit;
    [vm_compute in Hinit; discriminate |].
  destruct (to_dict ref) as [e | d] eqn:Hd;
    [vm_compute in Hinit; injection Hinit as <-; vm_compute in Hd; discriminate |].
  exists ref, d. split; [reflexivity |]. split; [exact Hd |].
  exact (arxiv_note_of_record Samples.runtime ref d Hd).
Defined.

End ArxivRecords.

(** ** The published date and the id of an arXiv entry *)

Lemma str_take_drop n s : str_take n s ++ str_drop n s = s.
Proof.
  revert s. induction n as [|n IH]; intros [|c s]; simpl; try reflexivity.
  now rewrite IH.
Qed.

Lemma length_str_take n s :
  (n <= String.length s)%nat -> String.length (str_take n s) = n.
Proof.
  revert s. induction n as [|n IH]; intros [|c s] H; simpl in *; try lia.
  rewrite IH; lia.
Qed.

Lemma bound_nat s (n : nat) : (n <= String.length s)%nat -> bound s (Z.of_nat n) = n.
Proof.
  intros H. unfold bound, len.
  destruct (Z.of_nat n <? 0)%Z eqn:Hn; [apply Z.ltb_lt in Hn; lia | lia].
Qed.

Section ArxivDates.
Import generate_arxiv_md.
Import generate_arxiv_md.Reference.

(** X6: the year and the month of a reference are the first four
    characters of the published text and its sixth and seventh, whatever
    they are, when the text has seven characters or more; a shorter text,
    such as a bare year, gives an empty year and an empty month. *)
Theorem published_year_month xml :
  let published := _field_text xml "published" ATOM in
  ((String.length published < 7)%nat /\ _published xml = ("", "")) \/
  (exists y c m rest,
     published = y ++ String c (m ++ rest) /\
     String.length y = 4%nat /\ String.length m = 2%nat /\
     _published xml = (y, m)).
Proof.
  intros published. unfold _published. fold published. unfold len.
  destruct (Z.of_nat (String.length published) <? 7)%Z eqn:Hlen.
  - left. apply Z.ltb_lt in Hlen. split; [lia | reflexivity].
  - right. apply Z.ltb_ge in Hlen.
    assert (H7 : (7 <= String.length published)%nat) by lia.
    unfold slice_to, slice.
    change 4%Z with (Z.of_nat 4). change 5%Z with (Z.of_nat 5).
    change 7%Z with (Z.of_nat 7).
    rewrite !bound_nat by lia.
    destruct published as [|c0 [|c1 [|c2 [|c3 [|c4 [|c5 [|c6 rest]]]]]]];
      simpl in H7; try lia.
    exists (String c0 (String c1 (String c2 (String c3 "")))), c4,
           (String c5 (String c6 "")), rest.
    repeat split.
Qed.

End ArxivDates.

(** The lowest place where a substring occurs. *)
Lemma find_from_first sub s i :
  occurs sub s ->
  exists a b,
    s = a ++ sub ++ b /\
    find_from sub s i = (i + Z.of_nat (String.length a))%Z /\
    forall a' b', s = a' ++ sub ++ b' -> (String.length a <= String.length a')%nat.
Proof.
  revert i. induction s as [|c s IH]; intros i Hocc.
  - destruct Hocc as (a & b & Hs). destruct a; [| discriminate]. simpl in Hs.
    exists "", b. split; [exact Hs |]. split.
    + cbn [find_from]. rewrite (proj2 (startswith_spec sub "")) by (now exists b).
      simpl. lia.
    + intros a' b' _. simpl. lia.
  - cbn [find_from]. destruct (startswith sub (String c s)) eqn:Hp.
    + apply startswith_spec in Hp as (b & Hb). exists "", b.
      split; [exact Hb |]. split; [simpl; lia |]. intros a' b' _. simpl. lia.
    + destruct Hocc as (a & b & Hs). destruct a as [|x a].
      * simpl in Hs. rewrite (proj2 (startswith_spec sub (String c s))) in Hp
          by (now exists b). discriminate.
      * injection Hs as <- ->.
        destruct (IH (i + 1)%Z) as (a0 & b0 & Hs0 & Hfind & Hmin);
          [now exists a, b |].
        exists (String c a0), b0. split; [simpl; now rewrite <- Hs0 |].
        split; [rewrite Hfind; cbn [String.length]; lia |].
        intros a' b' Hs'. destruct a' as [|x' a'].
        -- simpl in Hs'. rewrite (proj2 (startswith_spec sub (String c (a ++ sub ++ b))))
             in Hp by (now exists b'). discriminate.
        -- injection Hs' as _ Hs'. apply Hmin in Hs'. simpl. lia.
Qed.

Lemma append_same_length a b a' b' :
  a ++ b = a' ++ b' -> String.length a = String.length a' -> a = a' /\ b = b'.
Proof.
  revert a'. induction a as [|c a IH]; intros [|c' a'] H Hl; try discriminate.
  - now split.
  - injection H as -> H. injection Hl as Hl. destruct (IH _ H Hl) as [-> ->].
    now split.
Qed.

Lemma str_drop_append a b : str_drop (String.length a) (a ++ b) = b.
Proof. induction a as [|c a IH]; simpl; [now destruct b | exact IH]. Qed.

Lemma first_by_find sub a b :
  str_find sub (a ++ sub ++ b) = Z.of_nat (String.length a) ->
  forall a' b', a ++ sub ++ b = a' ++ sub ++ b' ->
                (String.length a <= String.length a')%nat.
Proof.
  intros Hfind a' b' Hs.
  destruct (find_from_first sub (a ++ sub ++ b) 0) as (a0 & b0 & _ & Hfind0 & Hmin);
    [now exists a, b |].
  unfold str_find in Hfind. rewrite Hfind0 in Hfind.
  replace (String.length a) with (String.length a0) by lia.
  now apply (Hmin a' b').
Qed.

(** X15: when the id URL of an entry contains [/abs/], the extracted id is
    what follows its first occurrence. *)
Theorem id_after_first_abs xml a b :
  generate_arxiv_md.Reference._field_text xml "id" generate_arxiv_md.ATOM
    = a ++ "/abs/" ++ b ->
  (forall a' b', a ++ "/abs/" ++ b = a' ++ "/abs/" ++ b' ->
                 (String.length a <= String.length a')%nat) ->
  generate_arxiv_md.Reference._id xml = b.
Proof.
  intros Hurl Hfirst. rewrite _id_value. cbv zeta. rewrite Hurl.
  destruct (find_from_first "/abs/" (a ++ "/abs/" ++ b) 0) as (a0 & b0 & Hs & Hfind & Hmin);
    [now exists a, b |].
  assert (Hlen : String.length a0 = String.length a).
  { apply Nat.le_antisymm; [apply (Hmin a b); reflexivity | apply (Hfirst a0 b0); exact Hs]. }
  destruct (append_same_length _ _ _ _ Hs (eq_sym Hlen)) as [<- Hb].
  unfold str_find. rewrite Hfind.
  replace (0 + Z.of_nat (String.length a) + 5)%Z
    with (Z.of_nat (String.length (a ++ "/abs/")))
    by (rewrite length_append; cbn [String.length]; lia).
  rewrite slice_from_nat, <- append_assoc. apply str_drop_append.
Qed.

Lemma id_after_first_abs_witness :
  generate_arxiv_md.Reference._id Samples.versioned = "2310.01234v2".
Proof.
  apply (id_after_first_abs Samples.versioned "http://arxiv.org" "2310.01234v2");
    [vm_compute; reflexivity |].
  apply first_by_find. vm_compute. reflexivity.
Defined.
